(** * Desktop notification permission service

    A shallow embedding of
    [chrome/browser/notifications/desktop_notification_service.cc]:
    the preference lists of allowed and denied origins, the default content
    setting, the permission infobar delegate and the data-URL layout choice.

    Conventions of the embedding:
    - a C++ [int] is a [Z]; none of the integers here is used in arithmetic;
    - [string16], [std::string] and [std::wstring] are all [string]; the
      conversions between them ([UTF16ToUTF8], [UTF8ToWide], ...) are the
      identity;
    - effects that leave the service (tasks posted to the IO thread, infobars
      added to a tab, histogram samples, a scheduled save of the preference
      file) are appended, in program order, to the [events] of the state;
    - [DCHECK(ChromeThread::CurrentlyOn(...))] is not modelled: every function
      is taken to run on the thread it asserts. *)

From Stdlib Require Import ZArith List String Bool Lia.
Import ListNotations.

Local Open Scope string_scope.
Local Open Scope list_scope.
Local Open Scope Z_scope.

(** ** Content settings *)

Module ContentSettings.

(** Modelled from the spec: [chrome/common/content_settings.h] is not part of
    the sources at hand.  The permission states are ALLOW, BLOCK and ASK, and
    there is one more value, the "use the factory default" sentinel
    CONTENT_SETTING_DEFAULT.  The preference stores the setting as an
    integer. *)
Inductive ContentSetting : Type :=
  | CONTENT_SETTING_DEFAULT
  | CONTENT_SETTING_ALLOW
  | CONTENT_SETTING_BLOCK
  | CONTENT_SETTING_ASK.

Definition CONTENT_SETTING_NUM_SETTINGS : Z := 4.

Definition ContentSettingToInt (c : ContentSetting) : Z :=
  match c with
  | CONTENT_SETTING_DEFAULT => 0
  | CONTENT_SETTING_ALLOW => 1
  | CONTENT_SETTING_BLOCK => 2
  | CONTENT_SETTING_ASK => 3
  end.

(** Modelled from the spec: [IntToContentSetting] decodes the stored integer;
    an integer outside the range of the enumeration decodes to the
    sentinel. *)
Definition IntToContentSetting (content_setting : Z) : ContentSetting :=
  if (content_setting <? 0) || (content_setting >=? CONTENT_SETTING_NUM_SETTINGS)
  then CONTENT_SETTING_DEFAULT
  else match content_setting with
       | 1 => CONTENT_SETTING_ALLOW
       | 2 => CONTENT_SETTING_BLOCK
       | 3 => CONTENT_SETTING_ASK
       | _ => CONTENT_SETTING_DEFAULT
       end.

Definition ContentSetting_eqb (a b : ContentSetting) : bool :=
  ContentSettingToInt a =? ContentSettingToInt b.

(** [const ContentSetting kDefaultSetting = CONTENT_SETTING_ASK;] *)
Definition kDefaultSetting : ContentSetting := CONTENT_SETTING_ASK.

End ContentSettings.
Export ContentSettings.

(** ** Values of the preference store *)

Module Values.

(** The two origin preferences are lists of [StringValue]s; a list is kept as
    the strings it holds, in order. *)
Definition ListValue : Type := list string.

(** Modelled from the spec: [ListValue::Remove] ([base/values.h], not part of
    the sources at hand) removes the first element equal to [value] and
    returns its index, or returns -1 and leaves the list alone when there is
    none. *)
Fixpoint Remove (value : string) (l : ListValue) : ListValue * Z :=
  match l with
  | [] => ([], -1)
  | x :: rest =>
      if String.eqb x value then (rest, 0)
      else let '(rest', i) := Remove value rest in
           (x :: rest', if i =? -1 then -1 else i + 1)
  end.

(** Modelled from the spec: [ListValue::AppendIfNotPresent] appends [value]
    at the end and returns true, unless an equal element is already there, in
    which case the list is unchanged and the result is false. *)
Definition AppendIfNotPresent (value : string) (l : ListValue) : ListValue * bool :=
  if existsb (String.eqb value) l then (l, false) else (l ++ [value], true).

End Values.

(** ** URLs *)

(** The parts of a [GURL] this file reads.  [GURL::operator==] compares the
    specs. *)
Record GURL : Type := mkGURL {
  is_valid : bool;
  spec : string;
  scheme : string;
  host : string
}.

Definition GURL_eqb (a b : GURL) : bool := String.eqb (spec a) (spec b).

(** [chrome::kExtensionScheme] *)
Definition kExtensionScheme : string := "chrome-extension".

Definition SchemeIs (u : GURL) (s : string) : bool := String.eqb (scheme u) s.

(** ** The state the service works on *)

Inductive PrefName : Type :=
  | kDesktopNotificationDefaultContentSetting
  | kDesktopNotificationAllowedOrigins
  | kDesktopNotificationDeniedOrigins.

(** Which of the three preferences the service is registered on as a
    preference observer. *)
Record Observers : Type := mkObservers {
  on_default : bool;
  on_allowed : bool;
  on_denied : bool
}.

(** The three preferences of the profile's [PrefService], and the observer
    registrations of the service. *)
Record PrefService : Type := mkPrefs {
  default_content_setting : Z;
  allowed_sites : Values.ListValue;
  denied_sites : Values.ListValue;
  observers : Observers
}.

(** Tasks posted to the IO thread. *)
Inductive Task : Type :=
  | NotificationPermissionCallbackTask (process_id route_id request_id : Z)
  | CacheAllowedOrigin (origin : GURL)
  | CacheDeniedOrigin (origin : GURL)
  | SetCacheAllowedOrigins (origins : list string)
  | SetCacheDeniedOrigins (origins : list string)
  | SetCacheDefaultContentSetting (setting : ContentSetting).

(** [NotificationPermissionInfoBarDelegate]; its [profile_] is the profile of
    the state the delegate's methods are run on. *)
Record NotificationPermissionInfoBarDelegate : Type := mkDelegate {
  origin_ : GURL;
  display_name_ : string;
  process_id_ : Z;
  route_id_ : Z;
  callback_context_ : Z;
  action_taken_ : bool
}.

(** A tab is known by a handle. *)
Definition TabContents : Type := Z.

Inductive Event : Type :=
  | PostTask (t : Task)
  | AddInfoBar (tab : TabContents) (d : NotificationPermissionInfoBarDelegate)
  | UMA_HISTOGRAM_COUNTS (name : string)
  | ScheduleSavePersistentPrefs.

(** The profile ([IsOffTheRecord], [GetPrefs], [GetExtensionsService]) and the
    effects so far.  The preferences of an off-the-record profile are those of
    the profile it was opened from.  The extensions service, when there is
    one, maps the host of an extension URL to the extension's name. *)
Record State : Type := mkState {
  IsOffTheRecord : bool;
  GetPrefs : PrefService;
  GetExtensionsService : option (list (string * string));
  events : list Event
}.

Definition set_prefs (p : PrefService) (s : State) : State :=
  mkState (IsOffTheRecord s) p (GetExtensionsService s) (events s).

Definition emit (e : Event) (s : State) : State :=
  mkState (IsOffTheRecord s) (GetPrefs s) (GetExtensionsService s) (events s ++ [e]).

Definition set_default (n : Z) (p : PrefService) : PrefService :=
  mkPrefs n (allowed_sites p) (denied_sites p) (observers p).

Definition set_allowed (l : Values.ListValue) (p : PrefService) : PrefService :=
  mkPrefs (default_content_setting p) l (denied_sites p) (observers p).

Definition set_denied (l : Values.ListValue) (p : PrefService) : PrefService :=
  mkPrefs (default_content_setting p) (allowed_sites p) l (observers p).

Definition set_observers (o : Observers) (p : PrefService) : PrefService :=
  mkPrefs (default_content_setting p) (allowed_sites p) (denied_sites p) o.

Definition observes (name : PrefName) (p : PrefService) : bool :=
  match name with
  | kDesktopNotificationDefaultContentSetting => on_default (observers p)
  | kDesktopNotificationAllowedOrigins => on_allowed (observers p)
  | kDesktopNotificationDeniedOrigins => on_denied (observers p)
  end.

(** ** Failed checks *)

(** A [DCHECK] is compiled either into a fatal check or into nothing,
    depending on the build; the functions that have one take the build's
    choice as [dcheck_is_on].  A function with a fatal check returns, next to
    the state it leaves, whether it returned or stopped the process with the
    check's message. *)
Inductive Checked (A : Type) : Type :=
  | Returned (a : A)
  | DcheckFatal (msg : string).
Arguments Returned {A} a.
Arguments DcheckFatal {A} msg.

Definition M (A : Type) : Type := State -> Checked A * State.

Definition ret {A : Type} (a : A) : M A := fun s => (Returned a, s).

Definition bind {A B : Type} (m : M A) (k : A -> M B) : M B :=
  fun s =>
    match m s with
    | (Returned a, s') => k a s'
    | (DcheckFatal msg, s') => (DcheckFatal msg, s')
    end.

Definition lift (f : State -> State) : M unit := fun s => (Returned tt, f s).

Definition fatal {A : Type} (msg : string) : M A := fun s => (DcheckFatal msg, s).

Notation "m1 ;; m2" := (bind m1 (fun _ => m2))
  (at level 61, right associativity).

(** [DCHECK(cond) << msg] *)
Definition DCHECK (dcheck_is_on cond : bool) (msg : string) : M unit :=
  if dcheck_is_on && negb cond then fatal msg else ret tt.

(** ** The preference service seen from the notification service *)

(** [GetAllowedOrigins] and [GetBlockedOrigins] read a list preference into a
    [std::vector<GURL>]; a URL read back from the store is only ever compared
    with [operator==], so the vector is kept as the specs. *)
Definition GetAllowedOrigins (s : State) : list string :=
  allowed_sites (GetPrefs s).

Definition GetBlockedOrigins (s : State) : list string :=
  denied_sites (GetPrefs s).

(** [Observe]: a changed preference is sent whole to the cache on the IO
    thread. *)
Definition Observe (name : PrefName) (s : State) : State :=
  match name with
  | kDesktopNotificationAllowedOrigins =>
      emit (PostTask (SetCacheAllowedOrigins (GetAllowedOrigins s))) s
  | kDesktopNotificationDeniedOrigins =>
      emit (PostTask (SetCacheDeniedOrigins (GetBlockedOrigins s))) s
  | kDesktopNotificationDefaultContentSetting =>
      emit (PostTask (SetCacheDefaultContentSetting
                        (IntToContentSetting (default_content_setting (GetPrefs s))))) s
  end.

(** Modelled from the spec: [PrefService::FireObservers]
    ([chrome/browser/pref_service.h], not part of the sources at hand) tells
    the observers registered on a preference that it changed; the service is
    the one observer modelled. *)
Definition FireObservers (name : PrefName) (s : State) : State :=
  if observes name (GetPrefs s) then Observe name s else s.

(** Modelled from the spec: a [ScopedPrefUpdate] on a preference fires the
    preference's observers when its scope ends. *)
Definition ScopedPrefUpdate (name : PrefName) (s : State) : State :=
  FireObservers name s.

(** Modelled from the spec: [PrefService::SetInteger] writes the default
    content setting and fires the observers when the value changed. *)
Definition SetInteger (value : Z) (s : State) : State :=
  let old_value := default_content_setting (GetPrefs s) in
  let s' := set_prefs (set_default value (GetPrefs s)) s in
  if old_value =? value then s'
  else FireObservers kDesktopNotificationDefaultContentSetting s'.

(** Modelled from the spec: [PrefService::ClearPref] puts a preference back
    to the value it was registered with (the empty list for the two list
    preferences, see [RegisterUserPrefs]) and fires the observers. *)
Definition ClearPref (name : PrefName) (s : State) : State :=
  match name with
  | kDesktopNotificationAllowedOrigins =>
      FireObservers name (set_prefs (set_allowed [] (GetPrefs s)) s)
  | kDesktopNotificationDeniedOrigins =>
      FireObservers name (set_prefs (set_denied [] (GetPrefs s)) s)
  | kDesktopNotificationDefaultContentSetting =>
      FireObservers name
        (set_prefs (set_default (ContentSettingToInt kDefaultSetting) (GetPrefs s)) s)
  end.

(** [RegisterUserPrefs] on a preference store that has none of the three
    preferences yet: the default content setting is registered with
    [kDefaultSetting], the two lists empty. *)
Definition RegisterUserPrefs : PrefService :=
  mkPrefs (ContentSettingToInt kDefaultSetting) [] [] (mkObservers false false false).

(** ** DesktopNotificationService *)

Definition StartObserving (s : State) : State :=
  if negb (IsOffTheRecord s)
  then set_prefs (set_observers (mkObservers true true true) (GetPrefs s)) s
  else s.

Definition StopObserving (s : State) : State :=
  if negb (IsOffTheRecord s)
  then set_prefs (set_observers (mkObservers false false false) (GetPrefs s)) s
  else s.

(** The constructor; [InitPrefs] fills the cache that lives on the IO thread,
    which is not part of the state. *)
Definition DesktopNotificationService
    (off_the_record : bool) (prefs : PrefService)
    (extensions : option (list (string * string))) : State :=
  StartObserving (mkState off_the_record prefs extensions []).

(** The block of [PersistPermissionChange] that moves [value] between the two
    lists and notes which of them changed. *)
Record ListsChange : Type := mkChange {
  allowed_after : Values.ListValue;
  denied_after : Values.ListValue;
  allowed_changed : bool;
  denied_changed : bool
}.

Definition MoveOrigin (value : string) (is_allowed : bool)
    (allowed denied : Values.ListValue) : ListsChange :=
  if is_allowed then
    (* Remove from the denied list. *)
    let '(denied', removed) := Values.Remove value denied in
    (* Add to the allowed list. *)
    let '(allowed', appended) := Values.AppendIfNotPresent value allowed in
    mkChange allowed' denied' appended (negb (removed =? -1))
  else
    (* Remove from the allowed list. *)
    let '(allowed', removed) := Values.Remove value allowed in
    (* Add to the denied list. *)
    let '(denied', appended) := Values.AppendIfNotPresent value denied in
    mkChange allowed' denied' (negb (removed =? -1)) appended.

Definition PersistPermissionChange (origin : GURL) (is_allowed : bool)
    (s : State) : State :=
  (* Don't persist changes when off the record. *)
  if IsOffTheRecord s then s
  else
    let s := StopObserving s in
    let c := MoveOrigin (spec origin) is_allowed
               (allowed_sites (GetPrefs s)) (denied_sites (GetPrefs s)) in
    let s := set_prefs (set_denied (denied_after c)
                          (set_allowed (allowed_after c) (GetPrefs s))) s in
    let s :=
      if allowed_changed c || denied_changed c then
        let s := if allowed_changed c
                 then ScopedPrefUpdate kDesktopNotificationAllowedOrigins s
                 else s in
        let s := if denied_changed c
                 then ScopedPrefUpdate kDesktopNotificationDeniedOrigins s
                 else s in
        emit ScheduleSavePersistentPrefs s
      else s in
    StartObserving s.

Definition GrantPermission (origin : GURL) (s : State) : State :=
  let s := PersistPermissionChange origin true s in
  (* Schedule a cache update on the IO thread. *)
  emit (PostTask (CacheAllowedOrigin origin)) s.

Definition DenyPermission (origin : GURL) (s : State) : State :=
  let s := PersistPermissionChange origin false s in
  (* Schedule a cache update on the IO thread. *)
  emit (PostTask (CacheDeniedOrigin origin)) s.

Definition GetDefaultContentSetting (s : State) : ContentSetting :=
  let setting := IntToContentSetting (default_content_setting (GetPrefs s)) in
  if ContentSetting_eqb setting CONTENT_SETTING_DEFAULT then kDefaultSetting
  else setting.

Definition SetDefaultContentSetting (setting : ContentSetting) (s : State) : State :=
  SetInteger
    (ContentSettingToInt
       (if ContentSetting_eqb setting CONTENT_SETTING_DEFAULT
        then kDefaultSetting else setting))
    s.

(** [allowed_sites->Remove(value)] and [denied_sites->Remove(value)] on the
    lists handed out by [GetMutableList]: the list in the store is changed,
    the index is the result. *)
Definition RemoveAllowedSite (value : string) : M Z :=
  fun s =>
    let '(l, removed_index) := Values.Remove value (allowed_sites (GetPrefs s)) in
    (Returned removed_index, set_prefs (set_allowed l (GetPrefs s)) s).

Definition RemoveDeniedSite (value : string) : M Z :=
  fun s =>
    let '(l, removed_index) := Values.Remove value (denied_sites (GetPrefs s)) in
    (Returned removed_index, set_prefs (set_denied l (GetPrefs s)) s).

Section Checks.

(** Whether [DCHECK]s are compiled in. *)
Variable dcheck_is_on : bool.

Definition ResetAllowedOrigin (origin : GURL) : M unit :=
  fun s =>
    if IsOffTheRecord s then ret tt s
    else
      bind (RemoveAllowedSite (spec origin)) (fun removed_index =>
        DCHECK dcheck_is_on (negb (-1 =? removed_index))
               (spec origin ++ " was not allowed")%string ;;
        lift (ScopedPrefUpdate kDesktopNotificationAllowedOrigins) ;;
        lift (emit ScheduleSavePersistentPrefs)) s.

Definition ResetBlockedOrigin (origin : GURL) : M unit :=
  fun s =>
    if IsOffTheRecord s then ret tt s
    else
      bind (RemoveDeniedSite (spec origin)) (fun removed_index =>
        DCHECK dcheck_is_on (negb (-1 =? removed_index))
               (spec origin ++ " was not blocked")%string ;;
        lift (ScopedPrefUpdate kDesktopNotificationDeniedOrigins) ;;
        lift (emit ScheduleSavePersistentPrefs)) s.

End Checks.

Definition ResetAllOrigins (s : State) : State :=
  let s := ClearPref kDesktopNotificationAllowedOrigins s in
  ClearPref kDesktopNotificationDeniedOrigins s.

Definition GetContentSetting (s : State) (origin : GURL) : ContentSetting :=
  if IsOffTheRecord s then kDefaultSetting
  else if existsb (String.eqb (spec origin)) (GetAllowedOrigins s)
  then CONTENT_SETTING_ALLOW
  else if existsb (String.eqb (spec origin)) (GetBlockedOrigins s)
  then CONTENT_SETTING_BLOCK
  else GetDefaultContentSetting s.

(** Modelled from the spec: [ExtensionsService::GetExtensionByURL], the one
    lookup call of the extension-name collaborator; an extension URL names its
    extension by its host. *)
Fixpoint GetExtensionByURL (extensions : list (string * string)) (url : GURL)
    : option string :=
  match extensions with
  | [] => None
  | (id, name) :: rest =>
      if String.eqb id (host url) then Some name
      else GetExtensionByURL rest url
  end.

Definition DisplayNameForOrigin (s : State) (origin : GURL) : string :=
  (* If the source is an extension, lookup the display name. *)
  let by_host := host origin in
  if SchemeIs origin kExtensionScheme then
    match GetExtensionsService s with
    | Some ext_service =>
        match GetExtensionByURL ext_service origin with
        | Some name => name
        | None => by_host
        end
    | None => by_host
    end
  else by_host.

(** [tab] is [None] for a null pointer. *)
Definition RequestPermission (origin : GURL)
    (process_id route_id callback_context : Z) (tab : option TabContents)
    (s : State) : State :=
  match tab with
  | None => s
  | Some tab =>
      let setting := GetContentSetting s origin in
      if ContentSetting_eqb setting CONTENT_SETTING_ASK then
        (* Show an info bar requesting permission. *)
        let display_name := DisplayNameForOrigin s origin in
        emit (AddInfoBar tab
                (mkDelegate origin display_name process_id route_id
                            callback_context false)) s
      else
        (* Notify renderer immediately. *)
        emit (PostTask (NotificationPermissionCallbackTask
                          process_id route_id callback_context)) s
  end.

(** ** NotificationPermissionInfoBarDelegate *)

Module InfoBarDelegate.

Definition set_action_taken (d : NotificationPermissionInfoBarDelegate)
    : NotificationPermissionInfoBarDelegate :=
  mkDelegate (origin_ d) (display_name_ d) (process_id_ d) (route_id_ d)
             (callback_context_ d) true.

(** [InfoBarClosed]; the delegate deletes itself, only the state is left. *)
Definition InfoBarClosed (d : NotificationPermissionInfoBarDelegate)
    (s : State) : State :=
  let s := if negb (action_taken_ d)
           then emit (UMA_HISTOGRAM_COUNTS "NotificationPermissionRequest.Ignored") s
           else s in
  emit (PostTask (NotificationPermissionCallbackTask
                    (process_id_ d) (route_id_ d) (callback_context_ d))) s.

Definition Accept (d : NotificationPermissionInfoBarDelegate) (s : State)
    : bool * NotificationPermissionInfoBarDelegate * State :=
  let s := emit (UMA_HISTOGRAM_COUNTS "NotificationPermissionRequest.Allowed") s in
  let s := GrantPermission (origin_ d) s in
  (true, set_action_taken d, s).

Definition Cancel (d : NotificationPermissionInfoBarDelegate) (s : State)
    : bool * NotificationPermissionInfoBarDelegate * State :=
  let s := emit (UMA_HISTOGRAM_COUNTS "NotificationPermissionRequest.Denied") s in
  let s := DenyPermission (origin_ d) s in
  (true, set_action_taken d, s).

(** What the user does with a permission infobar. *)
Inductive Outcome : Type := UserAccepts | UserDenies | UserDismisses.

(** Modelled from the spec: the decision surface (the infobar container of
    the tab, not part of the sources at hand) reports exactly one outcome per
    infobar.  A button press calls [Accept] or [Cancel] and closes the infobar
    when the call returns true; closing the infobar, with or without a button
    press, calls [InfoBarClosed]. *)
Definition Resolve (o : Outcome) (d : NotificationPermissionInfoBarDelegate)
    (s : State) : State :=
  match o with
  | UserAccepts =>
      let '(close, d', s') := Accept d s in
      if close then InfoBarClosed d' s' else s'
  | UserDenies =>
      let '(close, d', s') := Cancel d s in
      if close then InfoBarClosed d' s' else s'
  | UserDismisses => InfoBarClosed d s
  end.

End InfoBarDelegate.

(** The infobars among a run of events, in the order they were added. *)
Fixpoint infobars (evs : list Event) : list NotificationPermissionInfoBarDelegate :=
  match evs with
  | [] => []
  | AddInfoBar _ d :: rest => d :: infobars rest
  | _ :: rest => infobars rest
  end.

(** The completion notices among a run of events: the targets
    (process, route, request) of the posted
    [NotificationPermissionCallbackTask]s. *)
Fixpoint completion_notices (evs : list Event) : list (Z * Z * Z) :=
  match evs with
  | [] => []
  | PostTask (NotificationPermissionCallbackTask p r c) :: rest =>
      (p, r, c) :: completion_notices rest
  | _ :: rest => completion_notices rest
  end.

(** The saves of the preference file scheduled in a run of events. *)
Definition scheduled_saves (evs : list Event) : nat :=
  List.length (filter (fun e => match e with
                                | ScheduleSavePersistentPrefs => true
                                | _ => false
                                end) evs).

(** A permission request from the call of [RequestPermission] to the outcome
    of every infobar the call put up. *)
Definition PermissionRequest (origin : GURL)
    (process_id route_id callback_context : Z) (tab : option TabContents)
    (o : InfoBarDelegate.Outcome) (s : State) : State :=
  let s' := RequestPermission origin process_id route_id callback_context tab s in
  let shown := infobars (skipn (List.length (events s)) (events s')) in
  fold_left (fun st d => InfoBarDelegate.Resolve o d st) shown s'.

(** ** CreateDataUrl *)

Inductive WebTextDirection : Type :=
  | WebTextDirectionDefault
  | WebTextDirectionLeftToRight
  | WebTextDirectionRightToLeft.

Definition is_rtl (dir : WebTextDirection) : bool :=
  match dir with
  | WebTextDirectionRightToLeft => true
  | _ => false
  end.

(** The three notification templates. *)
Inductive Resource : Type :=
  | IDR_NOTIFICATION_ICON_HTML
  | IDR_NOTIFICATION_1LINE_HTML
  | IDR_NOTIFICATION_2LINE_HTML.

Definition empty (s : string) : bool := String.eqb s "".

Section DataUrl.

(** The helpers of other files the function calls. *)
Variable EscapeForHTML : string -> string.
Variable GetRawDataResource : Resource -> string.
Variable ReplaceStringPlaceholders : string -> list string -> string.
Variable EscapeQueryParamValue : string -> bool -> string.

(** The template and the substitutions [CreateDataUrl] settles on, up to and
    including the text direction pushed after the branches. *)
Definition DataUrlTemplate (icon_url : GURL) (title body : string)
    (dir : WebTextDirection) : Resource * list string :=
  let '(resource, subst) :=
    if is_valid icon_url then
      (IDR_NOTIFICATION_ICON_HTML,
       [spec icon_url; EscapeForHTML title; EscapeForHTML body;
        (* icon float position *)
        if is_rtl dir then "right" else "left"])
    else if empty title || empty body then
      let line := if empty title then body else title in
      (* Strings are div names in the template file. *)
      let line_name := if empty title then "description" else "title" in
      (IDR_NOTIFICATION_1LINE_HTML,
       [EscapeForHTML line_name; EscapeForHTML line])
    else
      (IDR_NOTIFICATION_2LINE_HTML,
       [EscapeForHTML title; EscapeForHTML body]) in
  (* body text direction *)
  (resource, subst ++ [if is_rtl dir then "rtl" else "ltr"]).

Definition CreateDataUrl (dcheck_is_on : bool) (icon_url : GURL)
    (title body : string) (dir : WebTextDirection) : Checked string :=
  let '(resource, subst) := DataUrlTemplate icon_url title body dir in
  let template_html := GetRawDataResource resource in
  if empty template_html then
    (* NOTREACHED() << "unable to load template. ID: " << resource; the
       number of the resource is not in this file, the message is kept
       without it *)
    if dcheck_is_on then DcheckFatal "unable to load template."
    else Returned ""
  else
    let data := ReplaceStringPlaceholders template_html subst in
    Returned ("data:text/html;charset=utf-8," ++ EscapeQueryParamValue data false)%string.

End DataUrl.

(** ** Sequences of calls *)

Inductive Call : Type :=
  | CallPersistPermissionChange (origin : GURL) (is_allowed : bool)
  | CallGrantPermission (origin : GURL)
  | CallDenyPermission (origin : GURL)
  | CallResetAllowedOrigin (origin : GURL)
  | CallResetBlockedOrigin (origin : GURL)
  | CallResetAllOrigins
  | CallSetDefaultContentSetting (setting : ContentSetting).

Definition call (dcheck_is_on : bool) (c : Call) : M unit :=
  match c with
  | CallPersistPermissionChange origin is_allowed =>
      lift (PersistPermissionChange origin is_allowed)
  | CallGrantPermission origin => lift (GrantPermission origin)
  | CallDenyPermission origin => lift (DenyPermission origin)
  | CallResetAllowedOrigin origin => ResetAllowedOrigin dcheck_is_on origin
  | CallResetBlockedOrigin origin => ResetBlockedOrigin dcheck_is_on origin
  | CallResetAllOrigins => lift ResetAllOrigins
  | CallSetDefaultContentSetting setting => lift (SetDefaultContentSetting setting)
  end.

(** The calls are made in order; a fatal check ends the run. *)
Fixpoint run (dcheck_is_on : bool) (cs : list Call) : M unit :=
  match cs with
  | [] => ret tt
  | c :: rest => call dcheck_is_on c ;; run dcheck_is_on rest
  end.

(** ** The data model's condition on the two lists *)

Fixpoint nodupb (l : list string) : bool :=
  match l with
  | [] => true
  | x :: rest => negb (existsb (String.eqb x) rest) && nodupb rest
  end.

(** No origin is listed twice, and none is in both lists. *)
Definition store_ok (p : PrefService) : bool :=
  nodupb (allowed_sites p) && nodupb (denied_sites p)
  && forallb (fun x => negb (existsb (String.eqb x) (denied_sites p)))
             (allowed_sites p).

(** The condition of the data model, as a proposition. *)
Definition StoreOk (p : PrefService) : Prop :=
  NoDup (allowed_sites p) /\ NoDup (denied_sites p) /\
  forall x, In x (allowed_sites p) -> ~ In x (denied_sites p).

(** ** Views of the effects *)

(** The tasks posted to the IO thread among a run of events, in order. *)
Fixpoint posted_tasks (evs : list Event) : list Task :=
  match evs with
  | [] => []
  | PostTask t :: rest => t :: posted_tasks rest
  | _ :: rest => posted_tasks rest
  end.

(** The histograms sampled in a run of events, in order. *)
Fixpoint histogram_samples (evs : list Event) : list string :=
  match evs with
  | [] => []
  | UMA_HISTOGRAM_COUNTS name :: rest => name :: histogram_samples rest
  | _ :: rest => histogram_samples rest
  end.

(** The entries of a list other than [value], in the order of the list. *)
Definition other_entries (value : string) (l : Values.ListValue) : Values.ListValue :=
  filter (fun x => negb (String.eqb x value)) l.

(** ** Several decisions in a row *)

(** A decision is an origin with the answer given for it; it reaches the
    service as [GrantPermission] or [DenyPermission]. *)
Definition Decide (d : GURL * bool) (s : State) : State :=
  if snd d then GrantPermission (fst d) s else DenyPermission (fst d) s.

Definition decide_all (ds : list (GURL * bool)) (s : State) : State :=
  fold_left (fun st d => Decide d st) ds s.

(** The cache update that [GrantPermission] or [DenyPermission] posts. *)
Definition cache_update (d : GURL * bool) : Task :=
  if snd d then CacheAllowedOrigin (fst d) else CacheDeniedOrigin (fst d).

(** The answer of the last decision in [ds] on an origin with the spec
    [value], if there is one. *)
Fixpoint last_decision (value : string) (ds : list (GURL * bool)) : option bool :=
  match ds with
  | [] => None
  | d :: rest =>
      match last_decision value rest with
      | Some b => Some b
      | None => if String.eqb (spec (fst d)) value then Some (snd d) else None
      end
  end.

(** ** NotificationPermissionCallbackTask *)

Inductive ViewMsg : Type :=
  | ViewMsg_PermissionRequestDone (route_id request_id : Z).

(** Modelled from the spec: [RenderViewHost::FromID]
    ([chrome/browser/renderer_host/render_view_host.h], not part of the
    sources at hand) finds the live view of a process and route; [hosts]
    lists the live views, and a view that is gone gives a null pointer. *)
Definition RenderViewHost_FromID (hosts : list (Z * Z)) (process_id route_id : Z)
    : option (Z * Z) :=
  find (fun h => (fst h =? process_id) && (snd h =? route_id)) hosts.

(** [Run]: the messages sent, each with the view it is sent to. *)
Definition Run (hosts : list (Z * Z)) (process_id route_id request_id : Z)
    : list (Z * Z * ViewMsg) :=
  match RenderViewHost_FromID hosts process_id route_id with
  | Some host => [(host, ViewMsg_PermissionRequestDone route_id request_id)]
  | None => []
  end.

(** The IO thread runs the posted completion tasks in the order they were
    posted. *)
Definition deliver (hosts : list (Z * Z)) (evs : list Event)
    : list (Z * Z * ViewMsg) :=
  flat_map (fun n => let '(p, r, c) := n in Run hosts p r c)
           (completion_notices evs).

(** ** Showing and cancelling a notification *)









Section Showing.

Variable EscapeForHTML : string -> string.
Variable GetRawDataResource : Resource -> string.
Variable ReplaceStringPlaceholders : string -> list string -> string.
Variable EscapeQueryParamValue : string -> bool -> string.
(** The constructor of a [GURL] from a string. *)
Variable GURL_of_string : string -> GURL.
Variable dcheck_is_on : bool.


End Showing.


(** ** Tabs and profiles *)

(** A profile is known by an identifier.  [tab_profile] is
    [contents->profile()], the profile a tab belongs to; [service] is
    [profile->GetDesktopNotificationService()], the state of the service of a
    profile; [store_of] names the preference store [GetPrefs] gives for a
    profile, which an off-the-record profile has in common with the profile
    it was opened from. *)
Definition ProfileId : Type := Z.

Record Browser : Type := mkBrowser {
  tab_profile : TabContents -> ProfileId;
  service : ProfileId -> State;
  store_of : ProfileId -> Z
}.

(** The three preferences of [written], with the observer registrations of
    [p]. *)
Definition shared_prefs (written p : PrefService) : PrefService :=
  mkPrefs (default_content_setting written) (allowed_sites written)
          (denied_sites written) (observers p).

(** The service of profile [P] has moved to the state [s]; the preferences
    it leaves are also those of the profiles with the same store. *)
Definition put_service (P : ProfileId) (s : State) (b : Browser) : Browser :=
  mkBrowser (tab_profile b)
    (fun Q =>
       if Q =? P then s
       else if store_of b Q =? store_of b P
       then set_prefs (shared_prefs (GetPrefs s) (GetPrefs (service b Q))) (service b Q)
       else service b Q)
    (store_of b).

(** The user's answer to the infobar [d] shown in [tab].  The delegate was
    made with [profile_(contents->profile())], and [Accept] and [Cancel] call
    [profile_->GetDesktopNotificationService()]: the answer goes to the
    service of the tab's profile, whichever service put the infobar up. *)
Definition ResolveInTab (o : InfoBarDelegate.Outcome) (tab : TabContents)
    (d : NotificationPermissionInfoBarDelegate) (b : Browser) : Browser :=
  let P := tab_profile b tab in
  put_service P (InfoBarDelegate.Resolve o d (service b P)) b.

(** A permission request handled by the service of profile [P], from the call
    of [RequestPermission] to the user's answer to every infobar the call put
    up in [tab]. *)
Definition PermissionRequestIn (P : ProfileId) (origin : GURL)
    (process_id route_id callback_context : Z) (tab : option TabContents)
    (o : InfoBarDelegate.Outcome) (b : Browser) : Browser :=
  let s := service b P in
  let s' := RequestPermission origin process_id route_id callback_context tab s in
  let shown := infobars (skipn (List.length (events s)) (events s')) in
  let b' := put_service P s' b in
  match tab with
  | None => b'
  | Some tab => fold_left (fun bb d => ResolveInTab o tab d bb) shown b'
  end.

(** ** States to try the operations on *)

Definition news_example : GURL :=
  mkGURL true "https://news.example/" "https" "news.example".

Definition mail_example : GURL :=
  mkGURL true "https://mail.example/" "https" "mail.example".

Definition fresh_profile : State :=
  DesktopNotificationService false RegisterUserPrefs None.

Definition fresh_off_the_record_profile : State :=
  DesktopNotificationService true RegisterUserPrefs None.

(** A regular profile with the default set to BLOCK, one origin allowed and
    one denied. *)
Definition settled_profile : State :=
  snd (run true
         [CallSetDefaultContentSetting CONTENT_SETTING_BLOCK;
          CallPersistPermissionChange news_example true;
          CallPersistPermissionChange mail_example false]
         fresh_profile).

(** An off-the-record profile opened from [settled_profile]: the preferences
    are shared, the service of the off-the-record profile observes none. *)
Definition off_the_record_settled_profile : State :=
  DesktopNotificationService true
    (set_observers (mkObservers false false false) (GetPrefs settled_profile))
    None.

Definition unseen_example : GURL :=
  mkGURL true "https://unseen.example/" "https" "unseen.example".

(** Stand-ins for the helpers of other files, to run the function on. *)
Definition plain_template (r : Resource) : string :=
  match r with
  | IDR_NOTIFICATION_ICON_HTML => "icon $1 $2 $3 $4 $5"
  | IDR_NOTIFICATION_1LINE_HTML => "1line $1 $2 $3"
  | IDR_NOTIFICATION_2LINE_HTML => "2line $1 $2 $3"
  end.

Definition plain_replace (t : string) (subst : list string) : string :=
  (t ++ ":" ++ String.concat "," subst)%string.

(** An extension, the profile that has it installed, and a page notification
    for it. *)
Definition extension_example : GURL :=
  mkGURL true "chrome-extension://abcdef/" "chrome-extension" "abcdef".

Definition extension_profile : State :=
  DesktopNotificationService false RegisterUserPrefs
    (Some [("abcdef", "Mail Checker")]).


(** A browser with one regular profile, 0, and the off-the-record profile
    opened from it, 1; tabs 5 and 6 belong to the regular profile, the other
    tabs to the off-the-record one. *)
Definition two_profiles : Browser :=
  mkBrowser (fun tab => if (tab =? 5) || (tab =? 6) then 0 else 1)
            (fun P => if P =? 0 then fresh_profile
                      else fresh_off_the_record_profile)
            (fun _ => 0).

(** A browser with two regular profiles, 0 and 2, each with its own store;
    every tab belongs to profile 2. *)
Definition foreign_tabs : Browser :=
  mkBrowser (fun _ => 2) (fun _ => fresh_profile) (fun P => P).

(** * Properties *)

(** ** Lists of values *)

Lemma existsb_eqb_In (x : string) (l : list string) :
  existsb (String.eqb x) l = true <-> In x l.
Proof.
  rewrite existsb_exists. split.
  - intros [y [Hy Heq]]. apply String.eqb_eq in Heq. now subst.
  - intros H. exists x. split; [assumption | apply String.eqb_refl].
Qed.

Lemma existsb_eqb_notIn (x : string) (l : list string) :
  existsb (String.eqb x) l = false <-> ~ In x l.
Proof.
  rewrite <- existsb_eqb_In. destruct (existsb (String.eqb x) l); split;
    intros; try congruence; try reflexivity.
Qed.

Lemma nodupb_NoDup (l : list string) : nodupb l = true <-> NoDup l.
Proof.
  induction l as [|x l IH]; simpl.
  - split; [constructor | reflexivity].
  - rewrite andb_true_iff, negb_true_iff, existsb_eqb_notIn, IH. split.
    + intros [H1 H2]. now constructor.
    + intros H. inversion H; subst. now split.
Qed.

Lemma store_ok_StoreOk (p : PrefService) : store_ok p = true <-> StoreOk p.
Proof.
  unfold store_ok, StoreOk.
  rewrite !andb_true_iff, !nodupb_NoDup, forallb_forall.
  split.
  - intros [[H1 H2] H3]. repeat split; try assumption.
    intros x Hx. apply existsb_eqb_notIn, negb_true_iff. now apply H3.
  - intros [H1 [H2 H3]]. repeat split; try assumption.
    intros x Hx. apply negb_true_iff, existsb_eqb_notIn. now apply H3.
Qed.

Module RemoveFacts.
Import Values.

Lemma index_lower_bound (v : string) (l : ListValue) : -1 <= snd (Remove v l).
Proof.
  induction l as [|x l IH]; simpl; [lia|].
  destruct (String.eqb x v); simpl; [lia|].
  destruct (Remove v l) as [r i]; simpl in *.
  destruct (Z.eqb_spec i (-1)); lia.
Qed.

Lemma absent_iff (v : string) (l : ListValue) :
  snd (Remove v l) = -1 <-> ~ In v l.
Proof.
  induction l as [|x l IH]; simpl.
  - tauto.
  - destruct (String.eqb_spec x v) as [->|Hne]; simpl.
    + split; [discriminate | intros H; exfalso; auto].
    + pose proof (index_lower_bound v l) as Hlb.
      destruct (Remove v l) as [r i]; simpl in *.
      destruct (Z.eqb_spec i (-1)) as [->|Hi].
      * split; [|reflexivity]. intros _ [H|H]; [congruence | now apply IH].
      * split; [lia|]. intros H. exfalso. apply Hi, IH. tauto.
Qed.

Lemma absent_same (v : string) (l : ListValue) :
  ~ In v l -> Remove v l = (l, -1).
Proof.
  induction l as [|x l IH]; simpl; intros H; [reflexivity|].
  destruct (String.eqb_spec x v) as [->|Hne]; [exfalso; auto|].
  rewrite IH by tauto. reflexivity.
Qed.

Lemma kept_subset (v x : string) (l : ListValue) :
  In x (fst (Remove v l)) -> In x l.
Proof.
  induction l as [|y l IH]; simpl; [tauto|].
  destruct (String.eqb y v); simpl; [tauto|].
  destruct (Remove v l) as [r i]; simpl in *. intros [H|H]; auto.
Qed.

Lemma others_kept (v x : string) (l : ListValue) :
  x <> v -> In x l -> In x (fst (Remove v l)).
Proof.
  intros Hne. induction l as [|y l IH]; simpl; [tauto|].
  destruct (String.eqb_spec y v) as [->|Hyv]; simpl.
  - intros [H|H]; [congruence | assumption].
  - destruct (Remove v l) as [r i]; simpl in *. intros [H|H]; auto.
Qed.

Lemma nodup_kept (v : string) (l : ListValue) :
  NoDup l -> NoDup (fst (Remove v l)).
Proof.
  induction l as [|y l IH]; simpl; intros H; [constructor|].
  inversion H as [|? ? Hy Hl]; subst.
  destruct (String.eqb y v); simpl; [assumption|].
  pose proof (kept_subset v y l) as Hsub.
  destruct (Remove v l) as [r i]; simpl in *.
  constructor; auto.
Qed.

Lemma gone_when_nodup (v : string) (l : ListValue) :
  NoDup l -> ~ In v (fst (Remove v l)).
Proof.
  induction l as [|y l IH]; simpl; intros H; [tauto|].
  inversion H as [|? ? Hy Hl]; subst.
  destruct (String.eqb_spec y v) as [->|Hyv]; simpl; [assumption|].
  specialize (IH Hl).
  destruct (Remove v l) as [r i]; simpl in *. intros [E|E]; auto.
Qed.

End RemoveFacts.

Module AppendFacts.
Import Values.

Lemma present_after (v : string) (l : ListValue) :
  In v (fst (AppendIfNotPresent v l)).
Proof.
  unfold AppendIfNotPresent.
  destruct (existsb (String.eqb v) l) eqn:E; simpl.
  - now apply existsb_eqb_In.
  - apply in_or_app. right. now left.
Qed.

Lemma members (v x : string) (l : ListValue) :
  In x (fst (AppendIfNotPresent v l)) <-> In x l \/ x = v.
Proof.
  unfold AppendIfNotPresent.
  destruct (existsb (String.eqb v) l) eqn:E; simpl.
  - apply existsb_eqb_In in E. split; [tauto|]. intros [H | ->]; assumption.
  - rewrite in_app_iff. simpl. split; intros [H|H]; auto.
    + destruct H as [H|[]]; auto.
Qed.

Lemma nodup_appended (v : string) (l : ListValue) :
  NoDup l -> NoDup (fst (AppendIfNotPresent v l)).
Proof.
  unfold AppendIfNotPresent. intros H.
  destruct (existsb (String.eqb v) l) eqn:E; simpl; [assumption|].
  apply existsb_eqb_notIn in E.
  apply NoDup_app; [assumption | constructor; [simpl; tauto | constructor] |].
  intros x Hx [Hv|[]]. congruence.
Qed.

Lemma unchanged_iff (v : string) (l : ListValue) :
  snd (AppendIfNotPresent v l) = false <-> In v l.
Proof.
  unfold AppendIfNotPresent. rewrite <- existsb_eqb_In.
  destruct (existsb (String.eqb v) l); simpl; split; congruence.
Qed.

Lemma present_same (v : string) (l : ListValue) :
  In v l -> AppendIfNotPresent v l = (l, false).
Proof.
  unfold AppendIfNotPresent. intros H. apply existsb_eqb_In in H. now rewrite H.
Qed.

End AppendFacts.

(** ** What the operations do to the state *)

Lemma GetPrefs_FireObservers (name : PrefName) (s : State) :
  GetPrefs (FireObservers name s) = GetPrefs s.
Proof.
  unfold FireObservers. destruct (observes name (GetPrefs s)); [|reflexivity].
  destruct name; reflexivity.
Qed.

Lemma IsOffTheRecord_FireObservers (name : PrefName) (s : State) :
  IsOffTheRecord (FireObservers name s) = IsOffTheRecord s.
Proof.
  unfold FireObservers. destruct (observes name (GetPrefs s)); [|reflexivity].
  destruct name; reflexivity.
Qed.

Lemma PersistPermissionChange_off_the_record (o : GURL) (b : bool) (s : State) :
  IsOffTheRecord s = true -> PersistPermissionChange o b s = s.
Proof. unfold PersistPermissionChange. now intros ->. Qed.

(** On a regular profile the call leaves the lists as [MoveOrigin] computes
    them, fires no observer, and schedules one save when a list changed. *)
Lemma PersistPermissionChange_regular (o : GURL) (b : bool) (s : State) :
  IsOffTheRecord s = false ->
  let c := MoveOrigin (spec o) b (allowed_sites (GetPrefs s))
                      (denied_sites (GetPrefs s)) in
  PersistPermissionChange o b s =
  mkState false
    (mkPrefs (default_content_setting (GetPrefs s))
             (allowed_after c) (denied_after c) (mkObservers true true true))
    (GetExtensionsService s)
    (events s ++ if allowed_changed c || denied_changed c
                 then [ScheduleSavePersistentPrefs] else []).
Proof.
  destruct s as [otr [dflt al dn obs] ext evs]. simpl. intros ->.
  unfold PersistPermissionChange. simpl.
  destruct (MoveOrigin (spec o) b al dn) as [al' dn' ca cd]. simpl.
  destruct ca, cd; simpl; unfold ScopedPrefUpdate, FireObservers, StartObserving,
    emit, set_prefs; simpl; rewrite ?app_nil_r; reflexivity.
Qed.

Lemma MoveOrigin_StoreOk (v : string) (b : bool) (al dn : Values.ListValue) :
  NoDup al -> NoDup dn -> (forall x, In x al -> ~ In x dn) ->
  let c := MoveOrigin v b al dn in
  NoDup (allowed_after c) /\ NoDup (denied_after c) /\
  forall x, In x (allowed_after c) -> ~ In x (denied_after c).
Proof.
  intros Ha Hd Hdisj. unfold MoveOrigin. destruct b.
  - pose proof (RemoveFacts.nodup_kept v dn Hd) as Hd'.
    pose proof (RemoveFacts.gone_when_nodup v dn Hd) as Hgone.
    pose proof (fun x => RemoveFacts.kept_subset v x dn) as Hsub.
    destruct (Values.Remove v dn) as [dn' i].
    pose proof (AppendFacts.nodup_appended v al Ha) as Ha'.
    pose proof (fun x => AppendFacts.members v x al) as Hmem.
    destruct (Values.AppendIfNotPresent v al) as [al' ap]. simpl in *.
    repeat split; try assumption.
    intros x Hx Hxd. apply Hmem in Hx. destruct Hx as [Hx | ->].
    + apply (Hdisj x Hx). now apply Hsub.
    + now apply Hgone.
  - pose proof (RemoveFacts.nodup_kept v al Ha) as Ha'.
    pose proof (RemoveFacts.gone_when_nodup v al Ha) as Hgone.
    pose proof (fun x => RemoveFacts.kept_subset v x al) as Hsub.
    destruct (Values.Remove v al) as [al' i].
    pose proof (AppendFacts.nodup_appended v dn Hd) as Hd'.
    pose proof (fun x => AppendFacts.members v x dn) as Hmem.
    destruct (Values.AppendIfNotPresent v dn) as [dn' ap]. simpl in *.
    repeat split; try assumption.
    intros x Hx Hxd. apply Hmem in Hxd. destruct Hxd as [Hxd | ->].
    + apply (Hdisj x); [now apply Hsub | assumption].
    + now apply Hgone.
Qed.

Lemma PersistPermissionChange_StoreOk (o : GURL) (b : bool) (s : State) :
  StoreOk (GetPrefs s) -> StoreOk (GetPrefs (PersistPermissionChange o b s)).
Proof.
  intros [Ha [Hd Hdisj]].
  destruct (IsOffTheRecord s) eqn:E.
  - rewrite PersistPermissionChange_off_the_record by assumption.
    repeat split; assumption.
  - rewrite PersistPermissionChange_regular by assumption.
    apply (MoveOrigin_StoreOk (spec o) b _ _ Ha Hd Hdisj).
Qed.

Lemma PersistPermissionChange_IsOffTheRecord (o : GURL) (b : bool) (s : State) :
  IsOffTheRecord (PersistPermissionChange o b s) = IsOffTheRecord s.
Proof.
  destruct (IsOffTheRecord s) eqn:E.
  - now rewrite PersistPermissionChange_off_the_record.
  - now rewrite PersistPermissionChange_regular.
Qed.

(** [ResetAllowedOrigin] on a regular profile, case by case. *)
Lemma ResetAllowedOrigin_regular (dcheck_is_on : bool) (o : GURL) (s : State) :
  IsOffTheRecord s = false ->
  let '(l, removed_index) := Values.Remove (spec o) (allowed_sites (GetPrefs s)) in
  let s1 := set_prefs (set_allowed l (GetPrefs s)) s in
  ResetAllowedOrigin dcheck_is_on o s =
  if dcheck_is_on && (removed_index =? -1)
  then (DcheckFatal (spec o ++ " was not allowed")%string, s1)
  else (Returned tt,
        emit ScheduleSavePersistentPrefs
          (ScopedPrefUpdate kDesktopNotificationAllowedOrigins s1)).
Proof.
  intros Hotr. unfold ResetAllowedOrigin, RemoveAllowedSite, bind, DCHECK.
  rewrite Hotr.
  destruct (Values.Remove (spec o) (allowed_sites (GetPrefs s))) as [l i].
  rewrite Z.eqb_sym, negb_involutive.
  destruct (dcheck_is_on && (i =? -1)); reflexivity.
Qed.

Lemma ResetBlockedOrigin_regular (dcheck_is_on : bool) (o : GURL) (s : State) :
  IsOffTheRecord s = false ->
  let '(l, removed_index) := Values.Remove (spec o) (denied_sites (GetPrefs s)) in
  let s1 := set_prefs (set_denied l (GetPrefs s)) s in
  ResetBlockedOrigin dcheck_is_on o s =
  if dcheck_is_on && (removed_index =? -1)
  then (DcheckFatal (spec o ++ " was not blocked")%string, s1)
  else (Returned tt,
        emit ScheduleSavePersistentPrefs
          (ScopedPrefUpdate kDesktopNotificationDeniedOrigins s1)).
Proof.
  intros Hotr. unfold ResetBlockedOrigin, RemoveDeniedSite, bind, DCHECK.
  rewrite Hotr.
  destruct (Values.Remove (spec o) (denied_sites (GetPrefs s))) as [l i].
  rewrite Z.eqb_sym, negb_involutive.
  destruct (dcheck_is_on && (i =? -1)); reflexivity.
Qed.

(** Whatever the outcome, the lists after [ResetAllowedOrigin] on a regular
    profile are the allowed list with the first entry for the origin taken
    out, and the denied list as it was. *)
Lemma ResetAllowedOrigin_prefs (dcheck_is_on : bool) (o : GURL) (s : State) :
  IsOffTheRecord s = false ->
  GetPrefs (snd (ResetAllowedOrigin dcheck_is_on o s)) =
  set_allowed (fst (Values.Remove (spec o) (allowed_sites (GetPrefs s)))) (GetPrefs s).
Proof.
  intros Hotr. pose proof (ResetAllowedOrigin_regular dcheck_is_on o s Hotr) as H.
  destruct (Values.Remove (spec o) (allowed_sites (GetPrefs s))) as [l i].
  rewrite H. destruct (dcheck_is_on && (i =? -1)); simpl; [reflexivity|].
  unfold ScopedPrefUpdate. now rewrite GetPrefs_FireObservers.
Qed.

Lemma ResetBlockedOrigin_prefs (dcheck_is_on : bool) (o : GURL) (s : State) :
  IsOffTheRecord s = false ->
  GetPrefs (snd (ResetBlockedOrigin dcheck_is_on o s)) =
  set_denied (fst (Values.Remove (spec o) (denied_sites (GetPrefs s)))) (GetPrefs s).
Proof.
  intros Hotr. pose proof (ResetBlockedOrigin_regular dcheck_is_on o s Hotr) as H.
  destruct (Values.Remove (spec o) (denied_sites (GetPrefs s))) as [l i].
  rewrite H. destruct (dcheck_is_on && (i =? -1)); simpl; [reflexivity|].
  unfold ScopedPrefUpdate. now rewrite GetPrefs_FireObservers.
Qed.

Lemma ResetAllowedOrigin_off_the_record (dcheck_is_on : bool) (o : GURL) (s : State) :
  IsOffTheRecord s = true -> ResetAllowedOrigin dcheck_is_on o s = (Returned tt, s).
Proof. unfold ResetAllowedOrigin. now intros ->. Qed.

Lemma ResetBlockedOrigin_off_the_record (dcheck_is_on : bool) (o : GURL) (s : State) :
  IsOffTheRecord s = true -> ResetBlockedOrigin dcheck_is_on o s = (Returned tt, s).
Proof. unfold ResetBlockedOrigin. now intros ->. Qed.

Lemma GetPrefs_ClearPref_allowed (s : State) :
  GetPrefs (ClearPref kDesktopNotificationAllowedOrigins s) =
  set_allowed [] (GetPrefs s).
Proof. unfold ClearPref. now rewrite GetPrefs_FireObservers. Qed.

Lemma GetPrefs_ClearPref_denied (s : State) :
  GetPrefs (ClearPref kDesktopNotificationDeniedOrigins s) =
  set_denied [] (GetPrefs s).
Proof. unfold ClearPref. now rewrite GetPrefs_FireObservers. Qed.

Lemma GetPrefs_ResetAllOrigins (s : State) :
  GetPrefs (ResetAllOrigins s) = set_denied [] (set_allowed [] (GetPrefs s)).
Proof.
  unfold ResetAllOrigins.
  now rewrite GetPrefs_ClearPref_denied, GetPrefs_ClearPref_allowed.
Qed.

Lemma GetPrefs_SetInteger (v : Z) (s : State) :
  GetPrefs (SetInteger v s) = set_default v (GetPrefs s).
Proof.
  unfold SetInteger. destruct (default_content_setting (GetPrefs s) =? v);
    [reflexivity | now rewrite GetPrefs_FireObservers].
Qed.

Lemma IsOffTheRecord_SetInteger (v : Z) (s : State) :
  IsOffTheRecord (SetInteger v s) = IsOffTheRecord s.
Proof.
  unfold SetInteger. destruct (default_content_setting (GetPrefs s) =? v);
    [reflexivity | now rewrite IsOffTheRecord_FireObservers].
Qed.

Lemma IsOffTheRecord_ResetAllOrigins (s : State) :
  IsOffTheRecord (ResetAllOrigins s) = IsOffTheRecord s.
Proof.
  unfold ResetAllOrigins, ClearPref.
  rewrite IsOffTheRecord_FireObservers. simpl.
  now rewrite IsOffTheRecord_FireObservers.
Qed.

Lemma ResetAllowedOrigin_IsOffTheRecord (dcheck_is_on : bool) (o : GURL) (s : State) :
  IsOffTheRecord (snd (ResetAllowedOrigin dcheck_is_on o s)) = IsOffTheRecord s.
Proof.
  destruct (IsOffTheRecord s) eqn:E.
  - now rewrite ResetAllowedOrigin_off_the_record.
  - pose proof (ResetAllowedOrigin_regular dcheck_is_on o s E) as H.
    destruct (Values.Remove (spec o) (allowed_sites (GetPrefs s))) as [l i].
    rewrite H. destruct (dcheck_is_on && (i =? -1)); simpl; [assumption|].
    unfold ScopedPrefUpdate. now rewrite IsOffTheRecord_FireObservers.
Qed.

Lemma ResetBlockedOrigin_IsOffTheRecord (dcheck_is_on : bool) (o : GURL) (s : State) :
  IsOffTheRecord (snd (ResetBlockedOrigin dcheck_is_on o s)) = IsOffTheRecord s.
Proof.
  destruct (IsOffTheRecord s) eqn:E.
  - now rewrite ResetBlockedOrigin_off_the_record.
  - pose proof (ResetBlockedOrigin_regular dcheck_is_on o s E) as H.
    destruct (Values.Remove (spec o) (denied_sites (GetPrefs s))) as [l i].
    rewrite H. destruct (dcheck_is_on && (i =? -1)); simpl; [assumption|].
    unfold ScopedPrefUpdate. now rewrite IsOffTheRecord_FireObservers.
Qed.

Lemma ResetAllowedOrigin_StoreOk (dcheck_is_on : bool) (o : GURL) (s : State) :
  StoreOk (GetPrefs s) ->
  StoreOk (GetPrefs (snd (ResetAllowedOrigin dcheck_is_on o s))).
Proof.
  intros Hok. destruct (IsOffTheRecord s) eqn:E.
  - now rewrite ResetAllowedOrigin_off_the_record.
  - rewrite ResetAllowedOrigin_prefs by assumption.
    destruct Hok as [Ha [Hd Hdisj]]. repeat split; simpl.
    + now apply RemoveFacts.nodup_kept.
    + assumption.
    + intros x Hx. apply Hdisj. eapply RemoveFacts.kept_subset; eassumption.
Qed.

Lemma ResetBlockedOrigin_StoreOk (dcheck_is_on : bool) (o : GURL) (s : State) :
  StoreOk (GetPrefs s) ->
  StoreOk (GetPrefs (snd (ResetBlockedOrigin dcheck_is_on o s))).
Proof.
  intros Hok. destruct (IsOffTheRecord s) eqn:E.
  - now rewrite ResetBlockedOrigin_off_the_record.
  - rewrite ResetBlockedOrigin_prefs by assumption.
    destruct Hok as [Ha [Hd Hdisj]]. repeat split; simpl.
    + assumption.
    + now apply RemoveFacts.nodup_kept.
    + intros x Hx Hxd. apply (Hdisj x Hx).
      eapply RemoveFacts.kept_subset; eassumption.
Qed.

(** Every call keeps the condition of the data model, and the kind of
    profile. *)
Lemma call_StoreOk (dcheck_is_on : bool) (c : Call) (s : State) :
  StoreOk (GetPrefs s) -> StoreOk (GetPrefs (snd (call dcheck_is_on c s))).
Proof.
  intros Hok. destruct c as [o b|o|o|o|o| |setting]; simpl.
  - now apply PersistPermissionChange_StoreOk.
  - apply (PersistPermissionChange_StoreOk o true s Hok).
  - apply (PersistPermissionChange_StoreOk o false s Hok).
  - now apply ResetAllowedOrigin_StoreOk.
  - now apply ResetBlockedOrigin_StoreOk.
  - rewrite GetPrefs_ResetAllOrigins. repeat split; simpl; try constructor.
    intros x [].
  - unfold SetDefaultContentSetting. rewrite GetPrefs_SetInteger.
    exact Hok.
Qed.

Lemma call_IsOffTheRecord (dcheck_is_on : bool) (c : Call) (s : State) :
  IsOffTheRecord (snd (call dcheck_is_on c s)) = IsOffTheRecord s.
Proof.
  destruct c as [o b|o|o|o|o| |setting]; simpl.
  - apply PersistPermissionChange_IsOffTheRecord.
  - apply (PersistPermissionChange_IsOffTheRecord o true s).
  - apply (PersistPermissionChange_IsOffTheRecord o false s).
  - apply ResetAllowedOrigin_IsOffTheRecord.
  - apply ResetBlockedOrigin_IsOffTheRecord.
  - apply IsOffTheRecord_ResetAllOrigins.
  - apply IsOffTheRecord_SetInteger.
Qed.

Lemma run_cons (dcheck_is_on : bool) (c : Call) (cs : list Call) (s : State) :
  snd (run dcheck_is_on (c :: cs) s) =
  match fst (call dcheck_is_on c s) with
  | Returned _ => snd (run dcheck_is_on cs (snd (call dcheck_is_on c s)))
  | DcheckFatal _ => snd (call dcheck_is_on c s)
  end.
Proof.
  simpl. unfold bind. destruct (call dcheck_is_on c s) as [[u|msg] s']; reflexivity.
Qed.

Lemma run_StoreOk (dcheck_is_on : bool) (cs : list Call) (s : State) :
  StoreOk (GetPrefs s) -> StoreOk (GetPrefs (snd (run dcheck_is_on cs s))).
Proof.
  revert s. induction cs as [|c cs IH]; intros s Hok; [exact Hok|].
  rewrite run_cons.
  pose proof (call_StoreOk dcheck_is_on c s Hok) as Hstep.
  destruct (fst (call dcheck_is_on c s)); [now apply IH | assumption].
Qed.

Lemma run_IsOffTheRecord (dcheck_is_on : bool) (cs : list Call) (s : State) :
  IsOffTheRecord (snd (run dcheck_is_on cs s)) = IsOffTheRecord s.
Proof.
  revert s. induction cs as [|c cs IH]; intros s; [reflexivity|].
  rewrite run_cons.
  pose proof (call_IsOffTheRecord dcheck_is_on c s) as Hstep.
  destruct (fst (call dcheck_is_on c s)); [now rewrite IH | assumption].
Qed.

(** *** An origin is in one list at most *)

(** C1. On a regular profile whose lists satisfy the data model (no origin
    listed twice, none in both lists), after any sequence of
    PersistPermissionChange, ResetAllowedOrigin and ResetBlockedOrigin calls
    (and of the other calls of the service), no origin is in both the allowed
    and the denied list.  The state looked at is the one the sequence ends in,
    also when a fatal check ends it early. *)
Theorem origin_in_at_most_one_list
    (dcheck_is_on : bool) (cs : list Call) (s : State) (O : GURL) :
  IsOffTheRecord s = false ->
  store_ok (GetPrefs s) = true ->
  let s' := snd (run dcheck_is_on cs s) in
  ~ (In (spec O) (allowed_sites (GetPrefs s')) /\
     In (spec O) (denied_sites (GetPrefs s'))).
Proof.
  intros _ Hok s' [Ha Hd].
  apply store_ok_StoreOk in Hok.
  destruct (run_StoreOk dcheck_is_on cs s Hok) as [_ [_ Hdisj]].
  exact (Hdisj (spec O) Ha Hd).
Qed.

Lemma origin_in_at_most_one_list_witness :
  let s' := snd (run true
                   [CallPersistPermissionChange news_example true;
                    CallPersistPermissionChange news_example false;
                    CallPersistPermissionChange mail_example true;
                    CallResetBlockedOrigin news_example;
                    CallPersistPermissionChange mail_example false]
                   fresh_profile) in
  ~ (In (spec mail_example) (allowed_sites (GetPrefs s')) /\
     In (spec mail_example) (denied_sites (GetPrefs s'))).
Proof.
  apply (origin_in_at_most_one_list true _ fresh_profile mail_example);
    reflexivity.
Defined.

(** *** What an off-the-record profile is told *)

(** C10. For an off-the-record profile GetContentSetting answers ASK for
    every origin, whatever calls (GrantPermission, DenyPermission,
    SetDefaultContentSetting, ...) were made before and whatever default
    content setting the preferences hold. *)
Theorem off_the_record_always_asks
    (dcheck_is_on : bool) (cs : list Call) (s : State) (O : GURL) :
  IsOffTheRecord s = true ->
  GetContentSetting (snd (run dcheck_is_on cs s)) O = CONTENT_SETTING_ASK.
Proof.
  intros Hotr. unfold GetContentSetting.
  now rewrite run_IsOffTheRecord, Hotr.
Qed.

Lemma off_the_record_always_asks_witness :
  GetContentSetting
    (snd (run true
            [CallSetDefaultContentSetting CONTENT_SETTING_BLOCK;
             CallGrantPermission news_example;
             CallDenyPermission mail_example]
            fresh_off_the_record_profile))
    news_example = CONTENT_SETTING_ASK.
Proof.
  apply (off_the_record_always_asks true _ fresh_off_the_record_profile news_example).
  reflexivity.
Defined.

(** *** Resolution of an origin's setting *)

Lemma GetContentSetting_allowed (s : State) (O : GURL) :
  IsOffTheRecord s = false ->
  In (spec O) (allowed_sites (GetPrefs s)) ->
  GetContentSetting s O = CONTENT_SETTING_ALLOW.
Proof.
  intros Hotr Hin. unfold GetContentSetting, GetAllowedOrigins. rewrite Hotr.
  apply existsb_eqb_In in Hin. now rewrite Hin.
Qed.

Lemma GetContentSetting_denied (s : State) (O : GURL) :
  IsOffTheRecord s = false ->
  ~ In (spec O) (allowed_sites (GetPrefs s)) ->
  In (spec O) (denied_sites (GetPrefs s)) ->
  GetContentSetting s O = CONTENT_SETTING_BLOCK.
Proof.
  intros Hotr Hout Hin.
  unfold GetContentSetting, GetAllowedOrigins, GetBlockedOrigins. rewrite Hotr.
  apply existsb_eqb_notIn in Hout. apply existsb_eqb_In in Hin.
  now rewrite Hout, Hin.
Qed.

Lemma GetContentSetting_unlisted (s : State) (O : GURL) :
  IsOffTheRecord s = false ->
  ~ In (spec O) (allowed_sites (GetPrefs s)) ->
  ~ In (spec O) (denied_sites (GetPrefs s)) ->
  GetContentSetting s O = GetDefaultContentSetting s.
Proof.
  intros Hotr Ha Hd.
  unfold GetContentSetting, GetAllowedOrigins, GetBlockedOrigins. rewrite Hotr.
  apply existsb_eqb_notIn in Ha. apply existsb_eqb_notIn in Hd.
  now rewrite Ha, Hd.
Qed.

Lemma MoveOrigin_allow (v : string) (al dn : Values.ListValue) :
  MoveOrigin v true al dn =
  mkChange (fst (Values.AppendIfNotPresent v al)) (fst (Values.Remove v dn))
           (snd (Values.AppendIfNotPresent v al))
           (negb (snd (Values.Remove v dn) =? -1)).
Proof.
  unfold MoveOrigin. destruct (Values.Remove v dn), (Values.AppendIfNotPresent v al).
  reflexivity.
Qed.

Lemma MoveOrigin_deny (v : string) (al dn : Values.ListValue) :
  MoveOrigin v false al dn =
  mkChange (fst (Values.Remove v al)) (fst (Values.AppendIfNotPresent v dn))
           (negb (snd (Values.Remove v al) =? -1))
           (snd (Values.AppendIfNotPresent v dn)).
Proof.
  unfold MoveOrigin. destruct (Values.Remove v al), (Values.AppendIfNotPresent v dn).
  reflexivity.
Qed.

(** A reset of an origin that is in the targeted list returns, in either
    build. *)
Lemma ResetAllowedOrigin_returns (dcheck_is_on : bool) (O : GURL) (s : State) :
  In (spec O) (allowed_sites (GetPrefs s)) ->
  fst (ResetAllowedOrigin dcheck_is_on O s) = Returned tt.
Proof.
  intros Hin. destruct (IsOffTheRecord s) eqn:E.
  - now rewrite ResetAllowedOrigin_off_the_record.
  - pose proof (ResetAllowedOrigin_regular dcheck_is_on O s E) as H.
    pose proof (RemoveFacts.absent_iff (spec O) (allowed_sites (GetPrefs s))) as Habs.
    destruct (Values.Remove (spec O) (allowed_sites (GetPrefs s))) as [l i].
    rewrite H. simpl in Habs.
    destruct (Z.eqb_spec i (-1)) as [Hi|Hi]; [exfalso; tauto|].
    now rewrite andb_false_r.
Qed.

Lemma ResetBlockedOrigin_returns (dcheck_is_on : bool) (O : GURL) (s : State) :
  In (spec O) (denied_sites (GetPrefs s)) ->
  fst (ResetBlockedOrigin dcheck_is_on O s) = Returned tt.
Proof.
  intros Hin. destruct (IsOffTheRecord s) eqn:E.
  - now rewrite ResetBlockedOrigin_off_the_record.
  - pose proof (ResetBlockedOrigin_regular dcheck_is_on O s E) as H.
    pose proof (RemoveFacts.absent_iff (spec O) (denied_sites (GetPrefs s))) as Habs.
    destruct (Values.Remove (spec O) (denied_sites (GetPrefs s))) as [l i].
    rewrite H. simpl in Habs.
    destruct (Z.eqb_spec i (-1)) as [Hi|Hi]; [exfalso; tauto|].
    now rewrite andb_false_r.
Qed.

Lemma GetDefaultContentSetting_prefs (s s' : State) :
  default_content_setting (GetPrefs s') = default_content_setting (GetPrefs s) ->
  GetDefaultContentSetting s' = GetDefaultContentSetting s.
Proof. unfold GetDefaultContentSetting. now intros ->. Qed.

(** C2. On a regular profile GetContentSetting answers ALLOW for an origin
    in the allowed list, otherwise BLOCK for one in the denied list, otherwise
    the default content setting.  So it answers ALLOW after
    PersistPermissionChange(O, true); and, the lists satisfying the data
    model, BLOCK after PersistPermissionChange(O, false) and the default
    content setting after the reset (ResetAllowedOrigin, ResetBlockedOrigin)
    of the list O is in. *)
Theorem GetContentSetting_resolves
    (dcheck_is_on : bool) (s : State) (O : GURL) :
  IsOffTheRecord s = false ->
  (In (spec O) (allowed_sites (GetPrefs s)) ->
   GetContentSetting s O = CONTENT_SETTING_ALLOW) /\
  (~ In (spec O) (allowed_sites (GetPrefs s)) ->
   In (spec O) (denied_sites (GetPrefs s)) ->
   GetContentSetting s O = CONTENT_SETTING_BLOCK) /\
  (~ In (spec O) (allowed_sites (GetPrefs s)) ->
   ~ In (spec O) (denied_sites (GetPrefs s)) ->
   GetContentSetting s O = GetDefaultContentSetting s) /\
  GetContentSetting (PersistPermissionChange O true s) O = CONTENT_SETTING_ALLOW /\
  (store_ok (GetPrefs s) = true ->
   GetContentSetting (PersistPermissionChange O false s) O = CONTENT_SETTING_BLOCK) /\
  (store_ok (GetPrefs s) = true ->
   In (spec O) (allowed_sites (GetPrefs s)) ->
   let r := ResetAllowedOrigin dcheck_is_on O s in
   fst r = Returned tt /\
   GetContentSetting (snd r) O = GetDefaultContentSetting (snd r) /\
   GetDefaultContentSetting (snd r) = GetDefaultContentSetting s) /\
  (store_ok (GetPrefs s) = true ->
   In (spec O) (denied_sites (GetPrefs s)) ->
   let r := ResetBlockedOrigin dcheck_is_on O s in
   fst r = Returned tt /\
   GetContentSetting (snd r) O = GetDefaultContentSetting (snd r) /\
   GetDefaultContentSetting (snd r) = GetDefaultContentSetting s).
Proof.
  intros Hotr.
  split; [now apply GetContentSetting_allowed|].
  split; [now apply GetContentSetting_denied|].
  split; [now apply GetContentSetting_unlisted|].
  split; [|split; [|split]].
  - apply GetContentSetting_allowed.
    + now rewrite PersistPermissionChange_IsOffTheRecord.
    + rewrite PersistPermissionChange_regular by assumption.
      rewrite MoveOrigin_allow. simpl. apply AppendFacts.present_after.
  - intros Hok. apply store_ok_StoreOk in Hok. destruct Hok as [Ha [Hd Hdisj]].
    apply GetContentSetting_denied.
    + now rewrite PersistPermissionChange_IsOffTheRecord.
    + rewrite PersistPermissionChange_regular by assumption.
      rewrite MoveOrigin_deny. simpl. now apply RemoveFacts.gone_when_nodup.
    + rewrite PersistPermissionChange_regular by assumption.
      rewrite MoveOrigin_deny. simpl. apply AppendFacts.present_after.
  - intros Hok Hin r. apply store_ok_StoreOk in Hok.
    destruct Hok as [Ha [Hd Hdisj]].
    split; [now apply ResetAllowedOrigin_returns|].
    assert (Hp := ResetAllowedOrigin_prefs dcheck_is_on O s Hotr).
    assert (Ho := ResetAllowedOrigin_IsOffTheRecord dcheck_is_on O s).
    fold r in Hp, Ho. rewrite Hotr in Ho. split.
    + apply GetContentSetting_unlisted; [assumption | |]; rewrite Hp; simpl.
      * now apply RemoveFacts.gone_when_nodup.
      * now apply Hdisj.
    + apply GetDefaultContentSetting_prefs. now rewrite Hp.
  - intros Hok Hin r. apply store_ok_StoreOk in Hok.
    destruct Hok as [Ha [Hd Hdisj]].
    split; [now apply ResetBlockedOrigin_returns|].
    assert (Hp := ResetBlockedOrigin_prefs dcheck_is_on O s Hotr).
    assert (Ho := ResetBlockedOrigin_IsOffTheRecord dcheck_is_on O s).
    fold r in Hp, Ho. rewrite Hotr in Ho. split.
    + apply GetContentSetting_unlisted; [assumption | |]; rewrite Hp; simpl.
      * intros Hx. now apply (Hdisj (spec O)).
      * now apply RemoveFacts.gone_when_nodup.
    + apply GetDefaultContentSetting_prefs. now rewrite Hp.
Qed.

Lemma GetContentSetting_resolves_witness :
  GetContentSetting settled_profile news_example = CONTENT_SETTING_ALLOW /\
  GetContentSetting settled_profile mail_example = CONTENT_SETTING_BLOCK /\
  GetContentSetting (PersistPermissionChange news_example false settled_profile)
                    news_example = CONTENT_SETTING_BLOCK /\
  GetContentSetting (snd (ResetAllowedOrigin true news_example settled_profile))
                    news_example = CONTENT_SETTING_BLOCK.
Proof.
  destruct (GetContentSetting_resolves true settled_profile news_example eq_refl)
    as (Hallow & _ & _ & _ & Hdeny & Hreset & _).
  destruct (GetContentSetting_resolves true settled_profile mail_example eq_refl)
    as (_ & Hblock & _).
  split; [apply Hallow; vm_compute; now left|].
  split; [apply Hblock; vm_compute; [intros [H|[]]; discriminate H | now left]|].
  split; [apply Hdeny; reflexivity|].
  destruct (Hreset eq_refl) as (_ & Hr & Hd); [vm_compute; now left|].
  rewrite Hr, Hd. reflexivity.
Defined.

(** *** Recording a decision twice *)

(** Once [PersistPermissionChange] has run on lists without duplicates, the
    same move finds nothing left to do. *)
Lemma MoveOrigin_again (v : string) (b : bool) (al dn : Values.ListValue) :
  NoDup al -> NoDup dn ->
  let c := MoveOrigin v b al dn in
  MoveOrigin v b (allowed_after c) (denied_after c) =
  mkChange (allowed_after c) (denied_after c) false false.
Proof.
  intros Ha Hd c. subst c. destruct b.
  - rewrite (MoveOrigin_allow v al dn). cbn [allowed_after denied_after].
    rewrite MoveOrigin_allow.
    rewrite (RemoveFacts.absent_same v (fst (Values.Remove v dn)))
      by now apply RemoveFacts.gone_when_nodup.
    rewrite (AppendFacts.present_same v (fst (Values.AppendIfNotPresent v al)))
      by apply AppendFacts.present_after.
    reflexivity.
  - rewrite (MoveOrigin_deny v al dn). cbn [allowed_after denied_after].
    rewrite MoveOrigin_deny.
    rewrite (RemoveFacts.absent_same v (fst (Values.Remove v al)))
      by now apply RemoveFacts.gone_when_nodup.
    rewrite (AppendFacts.present_same v (fst (Values.AppendIfNotPresent v dn)))
      by apply AppendFacts.present_after.
    reflexivity.
Qed.

Lemma PersistPermissionChange_regular_again (O : GURL) (b : bool) (s : State) :
  IsOffTheRecord s = false ->
  NoDup (allowed_sites (GetPrefs s)) -> NoDup (denied_sites (GetPrefs s)) ->
  let s1 := PersistPermissionChange O b s in
  MoveOrigin (spec O) b (allowed_sites (GetPrefs s1)) (denied_sites (GetPrefs s1)) =
  mkChange (allowed_sites (GetPrefs s1)) (denied_sites (GetPrefs s1)) false false /\
  PersistPermissionChange O b s1 = s1.
Proof.
  intros Hotr Ha Hd. cbv zeta.
  rewrite (PersistPermissionChange_regular O b s Hotr).
  pose proof (MoveOrigin_again (spec O) b _ _ Ha Hd) as Hagain. cbv zeta in Hagain.
  set (c := MoveOrigin (spec O) b (allowed_sites (GetPrefs s))
                       (denied_sites (GetPrefs s))) in *.
  cbn [GetPrefs allowed_sites denied_sites]. split; [exact Hagain|].
  rewrite PersistPermissionChange_regular by reflexivity.
  cbn [GetPrefs allowed_sites denied_sites default_content_setting
       GetExtensionsService events].
  rewrite Hagain. cbn [allowed_after denied_after allowed_changed denied_changed orb].
  now rewrite app_nil_r.
Qed.

(** C6. PersistPermissionChange is idempotent on lists that satisfy the data
    model: a second call for the same origin and decision leaves the state of
    the first call as it is, and on a regular profile the second call finds
    neither list changed (allowed_changed and denied_changed are both false,
    nothing is appended) and schedules no save.  This holds for
    is_allowed = true and for is_allowed = false. *)
Theorem PersistPermissionChange_idempotent
    (s : State) (O : GURL) (is_allowed : bool) :
  store_ok (GetPrefs s) = true ->
  let s1 := PersistPermissionChange O is_allowed s in
  let s2 := PersistPermissionChange O is_allowed s1 in
  s2 = s1 /\
  (IsOffTheRecord s = false ->
   let second := MoveOrigin (spec O) is_allowed
                   (allowed_sites (GetPrefs s1)) (denied_sites (GetPrefs s1)) in
   allowed_changed second = false /\ denied_changed second = false /\
   allowed_after second = allowed_sites (GetPrefs s1) /\
   denied_after second = denied_sites (GetPrefs s1) /\
   scheduled_saves (events s2) = scheduled_saves (events s1)).
Proof.
  intros Hok. apply store_ok_StoreOk in Hok. destruct Hok as [Ha [Hd _]].
  cbv zeta. destruct (IsOffTheRecord s) eqn:Hotr.
  - split; [|discriminate].
    now rewrite !(PersistPermissionChange_off_the_record O is_allowed s Hotr).
  - destruct (PersistPermissionChange_regular_again O is_allowed s Hotr Ha Hd)
      as [Hmove Hsame].
    split; [exact Hsame|]. intros _. rewrite Hmove, Hsame.
    repeat split; reflexivity.
Qed.

Lemma PersistPermissionChange_idempotent_witness :
  PersistPermissionChange news_example true
    (PersistPermissionChange news_example true settled_profile) =
  PersistPermissionChange news_example true settled_profile /\
  PersistPermissionChange mail_example true
    (PersistPermissionChange mail_example true settled_profile) =
  PersistPermissionChange mail_example true settled_profile.
Proof.
  split.
  - apply (PersistPermissionChange_idempotent settled_profile news_example true).
    reflexivity.
  - apply (PersistPermissionChange_idempotent settled_profile mail_example true).
    reflexivity.
Defined.

(** *** Resetting an origin *)











(** *** The default content setting *)

Lemma IntToContentSetting_ContentSettingToInt (c : ContentSetting) :
  IntToContentSetting (ContentSettingToInt c) = c.
Proof. now destruct c. Qed.

(** C9. SetDefaultContentSetting writes the integer of CONTENT_SETTING_ASK
    when it is given the sentinel CONTENT_SETTING_DEFAULT, and the integer of
    the setting otherwise, so what it stores is never the sentinel; and
    GetDefaultContentSetting never answers the sentinel: when the stored
    integer decodes to CONTENT_SETTING_DEFAULT it answers
    CONTENT_SETTING_ASK. *)
Theorem default_sentinel_normalized (setting : ContentSetting) (s : State) :
  let written := default_content_setting
                   (GetPrefs (SetDefaultContentSetting setting s)) in
  (setting = CONTENT_SETTING_DEFAULT ->
   written = ContentSettingToInt CONTENT_SETTING_ASK) /\
  (setting <> CONTENT_SETTING_DEFAULT -> written = ContentSettingToInt setting) /\
  written <> ContentSettingToInt CONTENT_SETTING_DEFAULT /\
  IntToContentSetting written <> CONTENT_SETTING_DEFAULT /\
  GetDefaultContentSetting s <> CONTENT_SETTING_DEFAULT /\
  (IntToContentSetting (default_content_setting (GetPrefs s)) = CONTENT_SETTING_DEFAULT ->
   GetDefaultContentSetting s = CONTENT_SETTING_ASK).
Proof.
  cbv zeta. unfold SetDefaultContentSetting. rewrite GetPrefs_SetInteger. simpl.
  split; [intros ->; reflexivity|].
  split; [destruct setting; intros H; try reflexivity; now elim H|].
  split; [destruct setting; discriminate|].
  split; [destruct setting; discriminate|].
  unfold GetDefaultContentSetting.
  destruct (IntToContentSetting (default_content_setting (GetPrefs s))); simpl;
    split; try discriminate; try reflexivity; intros; reflexivity.
Qed.

Lemma default_sentinel_normalized_witness :
  default_content_setting
    (GetPrefs (SetDefaultContentSetting CONTENT_SETTING_DEFAULT settled_profile)) = 3 /\
  default_content_setting
    (GetPrefs (SetDefaultContentSetting CONTENT_SETTING_ALLOW settled_profile)) = 1 /\
  GetDefaultContentSetting (set_prefs (set_default 7 (GetPrefs fresh_profile)) fresh_profile)
  = CONTENT_SETTING_ASK.
Proof.
  split; [|split].
  - apply (default_sentinel_normalized CONTENT_SETTING_DEFAULT settled_profile).
    reflexivity.
  - apply (default_sentinel_normalized CONTENT_SETTING_ALLOW settled_profile).
    discriminate.
  - apply (default_sentinel_normalized CONTENT_SETTING_DEFAULT
             (set_prefs (set_default 7 (GetPrefs fresh_profile)) fresh_profile)).
    reflexivity.
Defined.

(** *** Permission requests *)

Lemma completion_notices_app (l1 l2 : list Event) :
  completion_notices (l1 ++ l2) = completion_notices l1 ++ completion_notices l2.
Proof.
  induction l1 as [|e l1 IH]; [reflexivity|].
  destruct e as [[p r c|o|o|l|l|c]|t d|n|]; simpl; now rewrite IH.
Qed.

Lemma skipn_events_emitted (l extra : list Event) :
  skipn (List.length l) (l ++ extra) = extra.
Proof. induction l as [|e l IH]; [reflexivity | exact IH]. Qed.

Lemma PersistPermissionChange_completion_notices (o : GURL) (b : bool) (s : State) :
  completion_notices (events (PersistPermissionChange o b s)) =
  completion_notices (events s).
Proof.
  destruct (IsOffTheRecord s) eqn:E.
  - now rewrite PersistPermissionChange_off_the_record.
  - rewrite PersistPermissionChange_regular by assumption. simpl.
    rewrite completion_notices_app.
    destruct (_ || _); simpl; now rewrite app_nil_r.
Qed.

(** A setting is ASK, or it is not and the request is answered at once. *)
Lemma RequestPermission_events (origin : GURL) (p r c : Z) (tab : TabContents)
    (s : State) :
  events (RequestPermission origin p r c (Some tab) s) =
  events s ++
  [if ContentSetting_eqb (GetContentSetting s origin) CONTENT_SETTING_ASK
   then AddInfoBar tab (mkDelegate origin (DisplayNameForOrigin s origin) p r c false)
   else PostTask (NotificationPermissionCallbackTask p r c)].
Proof.
  unfold RequestPermission.
  destruct (ContentSetting_eqb (GetContentSetting s origin) CONTENT_SETTING_ASK);
    reflexivity.
Qed.

(** C3, as the code has it.  A RequestPermission call with a tab: when
    GetContentSetting answers ALLOW or BLOCK for the origin, the call posts
    the completion notice for (process_id, route_id, callback_context) and
    adds no infobar; when it answers ASK, the call adds the permission infobar
    to the tab and posts nothing.  So on a regular profile with default
    content setting BLOCK, an origin in neither list gets its notice and no
    infobar.  Without a tab the call does nothing; in either case no
    preference changes. *)
Theorem RequestPermission_notifies_or_asks
    (origin : GURL) (process_id route_id callback_context : Z)
    (tab : TabContents) (s : State) :
  let s' := RequestPermission origin process_id route_id callback_context
              (Some tab) s in
  let notice := PostTask (NotificationPermissionCallbackTask
                            process_id route_id callback_context) in
  (GetContentSetting s origin = CONTENT_SETTING_ALLOW \/
   GetContentSetting s origin = CONTENT_SETTING_BLOCK ->
   events s' = events s ++ [notice]) /\
  (GetContentSetting s origin = CONTENT_SETTING_ASK ->
   events s' =
   events s ++
   [AddInfoBar tab (mkDelegate origin (DisplayNameForOrigin s origin)
                               process_id route_id callback_context false)]) /\
  (IsOffTheRecord s = false ->
   GetDefaultContentSetting s = CONTENT_SETTING_BLOCK ->
   ~ In (spec origin) (allowed_sites (GetPrefs s)) ->
   ~ In (spec origin) (denied_sites (GetPrefs s)) ->
   events s' = events s ++ [notice]) /\
  GetPrefs s' = GetPrefs s /\
  RequestPermission origin process_id route_id callback_context None s = s.
Proof.
  cbv zeta. rewrite RequestPermission_events.
  split; [|split; [|split; [|split]]].
  - intros [H|H]; rewrite H; reflexivity.
  - intros H. rewrite H. reflexivity.
  - intros Hotr Hdef Ha Hd.
    rewrite (GetContentSetting_unlisted s origin Hotr Ha Hd), Hdef. reflexivity.
  - unfold RequestPermission.
    destruct (ContentSetting_eqb (GetContentSetting s origin) CONTENT_SETTING_ASK);
      reflexivity.
  - reflexivity.
Qed.

Lemma RequestPermission_notifies_or_asks_witness :
  events (RequestPermission news_example 7 1 42 (Some 5) settled_profile) =
  events settled_profile ++ [PostTask (NotificationPermissionCallbackTask 7 1 42)] /\
  events (RequestPermission news_example 7 1 42 (Some 5) fresh_profile) =
  events fresh_profile ++
  [AddInfoBar 5 (mkDelegate news_example "news.example" 7 1 42 false)].
Proof.
  split.
  - apply (proj1 (RequestPermission_notifies_or_asks
                    news_example 7 1 42 5 settled_profile)).
    left. reflexivity.
  - apply (proj1 (proj2 (RequestPermission_notifies_or_asks
                           news_example 7 1 42 5 fresh_profile))).
    reflexivity.
Defined.

(** C3 as stated fails in two places.  A call without a tab posts no
    completion notice although the origin's setting is ALLOW.  And on an
    off-the-record profile whose preferences hold the default BLOCK, a call
    for an origin in neither list puts up the infobar. *)
Lemma RequestPermission_counterexample :
  (GetContentSetting settled_profile news_example = CONTENT_SETTING_ALLOW /\
   events (RequestPermission news_example 7 1 42 None settled_profile) =
   events settled_profile) /\
  (GetDefaultContentSetting off_the_record_settled_profile = CONTENT_SETTING_BLOCK /\
   allowed_sites (GetPrefs off_the_record_settled_profile) = ["https://news.example/"%string] /\
   denied_sites (GetPrefs off_the_record_settled_profile) = ["https://mail.example/"%string] /\
   events (RequestPermission unseen_example 7 1 42 (Some 5)
             off_the_record_settled_profile) =
   [AddInfoBar 5 (mkDelegate unseen_example "unseen.example" 7 1 42 false)]).
Proof. repeat split. Qed.

Lemma InfoBarClosed_completion_notices
    (d : NotificationPermissionInfoBarDelegate) (s : State) :
  completion_notices (events (InfoBarDelegate.InfoBarClosed d s)) =
  completion_notices (events s) ++
  [(process_id_ d, route_id_ d, callback_context_ d)].
Proof.
  unfold InfoBarDelegate.InfoBarClosed. destruct (action_taken_ d); simpl;
    rewrite !completion_notices_app; simpl; now rewrite ?app_nil_r.
Qed.

(** Whatever the user does with the infobar, the one notice posted is the
    one of [InfoBarClosed]. *)
Lemma Resolve_completion_notices (o : InfoBarDelegate.Outcome)
    (d : NotificationPermissionInfoBarDelegate) (s : State) :
  completion_notices (events (InfoBarDelegate.Resolve o d s)) =
  completion_notices (events s) ++
  [(process_id_ d, route_id_ d, callback_context_ d)].
Proof.
  destruct o; unfold InfoBarDelegate.Resolve, InfoBarDelegate.Accept,
    InfoBarDelegate.Cancel; cbv iota beta zeta.
  - rewrite InfoBarClosed_completion_notices. simpl.
    unfold GrantPermission. simpl. rewrite completion_notices_app.
    rewrite PersistPermissionChange_completion_notices. simpl.
    rewrite completion_notices_app. simpl. now rewrite !app_nil_r.
  - rewrite InfoBarClosed_completion_notices. simpl.
    unfold DenyPermission. simpl. rewrite completion_notices_app.
    rewrite PersistPermissionChange_completion_notices. simpl.
    rewrite completion_notices_app. simpl. now rewrite !app_nil_r.
  - apply InfoBarClosed_completion_notices.
Qed.

(** C4, as the code has it.  A permission request made with a tab ends with
    exactly one more completion notice posted than before, and that notice
    targets the request's (process_id, route_id, callback_context): at once
    when the origin's setting is ALLOW or BLOCK, and otherwise when the
    infobar is closed, whether the user accepted, denied, or dismissed it. *)
Theorem one_completion_notice
    (origin : GURL) (process_id route_id callback_context : Z)
    (tab : TabContents) (o : InfoBarDelegate.Outcome) (s : State) :
  completion_notices
    (events (PermissionRequest origin process_id route_id callback_context
               (Some tab) o s)) =
  completion_notices (events s) ++ [(process_id, route_id, callback_context)].
Proof.
  unfold PermissionRequest. rewrite RequestPermission_events.
  rewrite skipn_events_emitted.
  pose proof (RequestPermission_events origin process_id route_id
                callback_context tab s) as Hev.
  destruct (ContentSetting_eqb (GetContentSetting s origin) CONTENT_SETTING_ASK).
  - cbn [infobars fold_left]. rewrite Resolve_completion_notices.
    rewrite Hev, completion_notices_app. simpl. now rewrite app_nil_r.
  - cbn [infobars fold_left]. rewrite Hev, completion_notices_app. reflexivity.
Qed.

(** C4 as stated fails for a request made without a tab: no completion notice
    is ever posted, whatever the outcome would have been. *)
Lemma no_completion_notice_counterexample :
  completion_notices
    (events (PermissionRequest news_example 7 1 42 None
               InfoBarDelegate.UserAccepts settled_profile)) = [] /\
  completion_notices
    (events (PermissionRequest news_example 7 1 42 None
               InfoBarDelegate.UserDenies fresh_profile)) = [] /\
  completion_notices
    (events (PermissionRequest news_example 7 1 42 None
               InfoBarDelegate.UserDismisses fresh_profile)) = [].
Proof. repeat split. Qed.

(** *** Off-the-record profiles *)

(** The three guarded writers leave an off-the-record profile as it is. *)
Lemma guarded_writers_off_the_record
    (dcheck_is_on : bool) (O : GURL) (b : bool) (s : State) :
  IsOffTheRecord s = true ->
  PersistPermissionChange O b s = s /\
  ResetAllowedOrigin dcheck_is_on O s = (Returned tt, s) /\
  ResetBlockedOrigin dcheck_is_on O s = (Returned tt, s).
Proof.
  intros Hotr. split; [|split].
  - now apply PersistPermissionChange_off_the_record.
  - now apply ResetAllowedOrigin_off_the_record.
  - now apply ResetBlockedOrigin_off_the_record.
Qed.

(** C5.  ResetAllOrigins has no off-the-record guard: called on an
    off-the-record profile it empties both lists of the preferences the
    profile shares with the profile it was opened from. *)
Theorem ResetAllOrigins_off_the_record_clears :
  IsOffTheRecord off_the_record_settled_profile = true /\
  allowed_sites (GetPrefs off_the_record_settled_profile) =
    ["https://news.example/"%string] /\
  denied_sites (GetPrefs off_the_record_settled_profile) =
    ["https://mail.example/"%string] /\
  allowed_sites (GetPrefs (ResetAllOrigins off_the_record_settled_profile)) = [] /\
  denied_sites (GetPrefs (ResetAllOrigins off_the_record_settled_profile)) = [] /\
  ResetAllOrigins off_the_record_settled_profile <> off_the_record_settled_profile.
Proof. repeat split. discriminate. Qed.

(** *** The layout of the data URL *)

Lemma DataUrlTemplate_last (EscapeForHTML : string -> string)
    (icon_url : GURL) (title body : string) (dir : WebTextDirection) :
  last (snd (DataUrlTemplate EscapeForHTML icon_url title body dir)) ""%string =
  if is_rtl dir then "rtl"%string else "ltr"%string.
Proof.
  unfold DataUrlTemplate.
  destruct (is_valid icon_url); [|destruct (empty title || empty body)];
    cbn [snd]; apply last_last.
Qed.

Lemma empty_iff (x : string) : empty x = true <-> x = ""%string.
Proof. unfold empty. apply String.eqb_eq. Qed.

(** C7, as the code has it.  CreateDataUrl takes the icon template when the
    icon URL is valid; otherwise the one-line template when the title or the
    body is empty, also when both are; otherwise the two-line template.  In
    each of the three cases the last substitution is the text direction,
    "rtl" for WebTextDirectionRightToLeft and "ltr" for the other
    directions.  The URL returned is made from that template and those
    substitutions. *)
Theorem CreateDataUrl_layout
    (EscapeForHTML : string -> string)
    (GetRawDataResource : Resource -> string)
    (ReplaceStringPlaceholders : string -> list string -> string)
    (EscapeQueryParamValue : string -> bool -> string)
    (dcheck_is_on : bool)
    (icon_url : GURL) (title body : string) (dir : WebTextDirection) :
  let t := DataUrlTemplate EscapeForHTML icon_url title body dir in
  (is_valid icon_url = true -> fst t = IDR_NOTIFICATION_ICON_HTML) /\
  (is_valid icon_url = false -> title = ""%string \/ body = ""%string ->
   fst t = IDR_NOTIFICATION_1LINE_HTML) /\
  (is_valid icon_url = false -> title <> ""%string -> body <> ""%string ->
   fst t = IDR_NOTIFICATION_2LINE_HTML) /\
  (dir = WebTextDirectionRightToLeft -> last (snd t) ""%string = "rtl"%string) /\
  (dir <> WebTextDirectionRightToLeft -> last (snd t) ""%string = "ltr"%string) /\
  (GetRawDataResource (fst t) <> ""%string ->
   CreateDataUrl EscapeForHTML GetRawDataResource ReplaceStringPlaceholders
                 EscapeQueryParamValue dcheck_is_on icon_url title body dir =
   Returned ("data:text/html;charset=utf-8," ++
             EscapeQueryParamValue
               (ReplaceStringPlaceholders (GetRawDataResource (fst t)) (snd t))
               false)%string).
Proof.
  cbv zeta. rewrite DataUrlTemplate_last.
  split; [|split; [|split; [|split; [|split]]]].
  - unfold DataUrlTemplate. now intros ->.
  - unfold DataUrlTemplate. intros -> Hempty.
    assert (E : empty title || empty body = true).
    { apply orb_true_iff. rewrite !empty_iff. exact Hempty. }
    now rewrite E.
  - unfold DataUrlTemplate. intros -> Ht Hb.
    assert (E : empty title || empty body = false).
    { apply orb_false_iff. split; apply not_true_is_false; rewrite empty_iff;
        assumption. }
    now rewrite E.
  - now intros ->.
  - destruct dir; intros H; try reflexivity. now elim H.
  - unfold CreateDataUrl.
    destruct (DataUrlTemplate EscapeForHTML icon_url title body dir) as [r sub].
    cbn [fst snd]. intros Hloaded.
    destruct (empty (GetRawDataResource r)) eqn:E; [|reflexivity].
    apply empty_iff in E. contradiction.
Qed.

Lemma CreateDataUrl_layout_witness :
  fst (DataUrlTemplate (fun x => x) (mkGURL false "" "" "") "Hello" ""
         WebTextDirectionRightToLeft) = IDR_NOTIFICATION_1LINE_HTML /\
  fst (DataUrlTemplate (fun x => x) (mkGURL false "" "" "") "Hello" "World"
         WebTextDirectionDefault) = IDR_NOTIFICATION_2LINE_HTML /\
  last (snd (DataUrlTemplate (fun x => x) news_example "Hello" "World"
               WebTextDirectionRightToLeft)) ""%string = "rtl"%string /\
  CreateDataUrl (fun x => x) plain_template plain_replace (fun d _ => d) true
                (mkGURL false "" "" "") "Hello" "World" WebTextDirectionDefault =
  Returned "data:text/html;charset=utf-8,2line $1 $2 $3:Hello,World,ltr"%string.
Proof.
  pose proof (CreateDataUrl_layout (fun x => x) plain_template plain_replace
                (fun d _ => d) true (mkGURL false "" "" "") "Hello" ""
                WebTextDirectionRightToLeft) as (_ & Hone & _).
  pose proof (CreateDataUrl_layout (fun x => x) plain_template plain_replace
                (fun d _ => d) true (mkGURL false "" "" "") "Hello" "World"
                WebTextDirectionDefault) as (_ & _ & Htwo & _ & _ & Hurl).
  pose proof (CreateDataUrl_layout (fun x => x) plain_template plain_replace
                (fun d _ => d) true news_example "Hello" "World"
                WebTextDirectionRightToLeft) as (_ & _ & _ & Hrtl & _).
  split; [|split; [|split]].
  - apply Hone; [reflexivity | right; reflexivity].
  - apply Htwo; [reflexivity | discriminate | discriminate].
  - apply Hrtl. reflexivity.
  - rewrite Hurl; [reflexivity | discriminate].
Defined.

(** C7 as stated fails when the icon URL is not valid and the title and the
    body are both empty: none of the two is non-empty, yet the template is the
    one-line one, not the two-line one. *)
Lemma CreateDataUrl_layout_counterexample :
  fst (DataUrlTemplate (fun x => x) (mkGURL false "" "" "") "" ""
         WebTextDirectionDefault) = IDR_NOTIFICATION_1LINE_HTML /\
  fst (DataUrlTemplate (fun x => x) (mkGURL false "" "" "") "" ""
         WebTextDirectionDefault) <> IDR_NOTIFICATION_2LINE_HTML.
Proof. split; [reflexivity | discriminate]. Qed.

(** * Further properties *)

(** ** A decision and the other origins *)

Lemma existsb_eqb_same (x : string) (l l' : list string) :
  (In x l <-> In x l') ->
  existsb (String.eqb x) l = existsb (String.eqb x) l'.
Proof.
  intros H.
  destruct (existsb (String.eqb x) l) eqn:E, (existsb (String.eqb x) l') eqn:E';
    try reflexivity.
  - apply existsb_eqb_In in E. apply existsb_eqb_notIn in E'. tauto.
  - apply existsb_eqb_notIn in E. apply existsb_eqb_In in E'. tauto.
Qed.

(** The setting of an origin is read off the kind of profile, the membership
    of its spec in the two lists, and the stored default. *)
Lemma GetContentSetting_same (s s' : State) (O : GURL) :
  IsOffTheRecord s' = IsOffTheRecord s ->
  (In (spec O) (allowed_sites (GetPrefs s')) <-> In (spec O) (allowed_sites (GetPrefs s))) ->
  (In (spec O) (denied_sites (GetPrefs s')) <-> In (spec O) (denied_sites (GetPrefs s))) ->
  default_content_setting (GetPrefs s') = default_content_setting (GetPrefs s) ->
  GetContentSetting s' O = GetContentSetting s O.
Proof.
  intros Hotr Ha Hd Hdef.
  unfold GetContentSetting, GetAllowedOrigins, GetBlockedOrigins,
    GetDefaultContentSetting.
  now rewrite Hotr, (existsb_eqb_same _ _ _ Ha), (existsb_eqb_same _ _ _ Hd), Hdef.
Qed.

Lemma MoveOrigin_members_of_others (v x : string) (b : bool)
    (al dn : Values.ListValue) :
  x <> v ->
  (In x (allowed_after (MoveOrigin v b al dn)) <-> In x al) /\
  (In x (denied_after (MoveOrigin v b al dn)) <-> In x dn).
Proof.
  intros Hne. destruct b.
  - rewrite MoveOrigin_allow. cbn [allowed_after denied_after]. split.
    + rewrite AppendFacts.members. tauto.
    + split; [apply RemoveFacts.kept_subset | now apply RemoveFacts.others_kept].
  - rewrite MoveOrigin_deny. cbn [allowed_after denied_after]. split.
    + split; [apply RemoveFacts.kept_subset | now apply RemoveFacts.others_kept].
    + rewrite AppendFacts.members. tauto.
Qed.

Lemma other_entries_Remove (v : string) (l : Values.ListValue) :
  other_entries v (fst (Values.Remove v l)) = other_entries v l.
Proof.
  induction l as [|x l IH]; [reflexivity|]. simpl.
  destruct (String.eqb x v) eqn:E; simpl; [reflexivity|].
  destruct (Values.Remove v l) as [r i]. simpl in *. now rewrite E, IH.
Qed.

Lemma other_entries_AppendIfNotPresent (v : string) (l : Values.ListValue) :
  other_entries v (fst (Values.AppendIfNotPresent v l)) = other_entries v l.
Proof.
  unfold Values.AppendIfNotPresent.
  destruct (existsb (String.eqb v) l); [reflexivity|]. simpl.
  unfold other_entries. rewrite filter_app. simpl.
  now rewrite String.eqb_refl, app_nil_r.
Qed.

Lemma MoveOrigin_other_entries (v : string) (b : bool) (al dn : Values.ListValue) :
  other_entries v (allowed_after (MoveOrigin v b al dn)) = other_entries v al /\
  other_entries v (denied_after (MoveOrigin v b al dn)) = other_entries v dn.
Proof.
  destruct b.
  - rewrite MoveOrigin_allow. cbn [allowed_after denied_after].
    now rewrite other_entries_AppendIfNotPresent, other_entries_Remove.
  - rewrite MoveOrigin_deny. cbn [allowed_after denied_after].
    now rewrite other_entries_AppendIfNotPresent, other_entries_Remove.
Qed.

Lemma PersistPermissionChange_setting_of_other (o O' : GURL) (b : bool) (s : State) :
  spec O' <> spec o ->
  GetContentSetting (PersistPermissionChange o b s) O' = GetContentSetting s O'.
Proof.
  intros Hne. destruct (IsOffTheRecord s) eqn:Hotr.
  - now rewrite PersistPermissionChange_off_the_record.
  - rewrite PersistPermissionChange_regular by assumption.
    destruct (MoveOrigin_members_of_others (spec o) (spec O') b
                (allowed_sites (GetPrefs s)) (denied_sites (GetPrefs s)) Hne)
      as [Ha Hd].
    apply GetContentSetting_same; simpl; auto.
Qed.

(** X1. PersistPermissionChange for one origin leaves every origin with
    another spec as it was: its content setting is the same, and the entries
    of both lists other than the decided origin keep their places; the default
    content setting is untouched. *)
Theorem decision_leaves_other_origins (O O' : GURL) (b : bool) (s : State) :
  spec O' <> spec O ->
  let s' := PersistPermissionChange O b s in
  GetContentSetting s' O' = GetContentSetting s O' /\
  other_entries (spec O) (allowed_sites (GetPrefs s')) =
  other_entries (spec O) (allowed_sites (GetPrefs s)) /\
  other_entries (spec O) (denied_sites (GetPrefs s')) =
  other_entries (spec O) (denied_sites (GetPrefs s)) /\
  default_content_setting (GetPrefs s') = default_content_setting (GetPrefs s).
Proof.
  intros Hne. cbv zeta.
  split; [now apply PersistPermissionChange_setting_of_other|].
  destruct (IsOffTheRecord s) eqn:Hotr.
  - rewrite PersistPermissionChange_off_the_record by assumption. auto.
  - rewrite PersistPermissionChange_regular by assumption. simpl.
    destruct (MoveOrigin_other_entries (spec O) b (allowed_sites (GetPrefs s))
                (denied_sites (GetPrefs s))) as [Ha Hd].
    auto.
Qed.

Lemma decision_leaves_other_origins_witness :
  GetContentSetting (PersistPermissionChange news_example false settled_profile)
                    mail_example =
  GetContentSetting settled_profile mail_example.
Proof.
  apply (decision_leaves_other_origins news_example mail_example false
           settled_profile).
  discriminate.
Defined.

(** ** The last decision on an origin *)

Lemma GetContentSetting_after_allow (o O : GURL) (s : State) :
  IsOffTheRecord s = false -> spec o = spec O ->
  GetContentSetting (PersistPermissionChange o true s) O = CONTENT_SETTING_ALLOW.
Proof.
  intros Hotr Heq. apply GetContentSetting_allowed.
  - now rewrite PersistPermissionChange_IsOffTheRecord.
  - rewrite PersistPermissionChange_regular by assumption.
    rewrite MoveOrigin_allow, Heq. simpl. apply AppendFacts.present_after.
Qed.

Lemma GetContentSetting_after_deny (o O : GURL) (s : State) :
  IsOffTheRecord s = false -> NoDup (allowed_sites (GetPrefs s)) ->
  spec o = spec O ->
  GetContentSetting (PersistPermissionChange o false s) O = CONTENT_SETTING_BLOCK.
Proof.
  intros Hotr Hnd Heq. apply GetContentSetting_denied.
  - now rewrite PersistPermissionChange_IsOffTheRecord.
  - rewrite PersistPermissionChange_regular by assumption.
    rewrite MoveOrigin_deny, Heq. simpl. now apply RemoveFacts.gone_when_nodup.
  - rewrite PersistPermissionChange_regular by assumption.
    rewrite MoveOrigin_deny, Heq. simpl. apply AppendFacts.present_after.
Qed.

Lemma GetContentSetting_Decide (d : GURL * bool) (s : State) (O : GURL) :
  GetContentSetting (Decide d s) O =
  GetContentSetting (PersistPermissionChange (fst d) (snd d) s) O.
Proof. unfold Decide. destruct (snd d); reflexivity. Qed.

Lemma GetPrefs_Decide (d : GURL * bool) (s : State) :
  GetPrefs (Decide d s) = GetPrefs (PersistPermissionChange (fst d) (snd d) s).
Proof. unfold Decide. destruct (snd d); reflexivity. Qed.

Lemma IsOffTheRecord_Decide (d : GURL * bool) (s : State) :
  IsOffTheRecord (Decide d s) = IsOffTheRecord s.
Proof.
  unfold Decide. destruct (snd d); simpl;
    apply PersistPermissionChange_IsOffTheRecord.
Qed.

(** X2. On a regular profile whose lists satisfy the data model, after any
    number of GrantPermission and DenyPermission calls the content setting of
    an origin is the one of the last decision made on it, ALLOW for a grant
    and BLOCK for a denial; an origin no decision was made on has the setting
    it had before. *)
Theorem last_decision_wins (ds : list (GURL * bool)) (s : State) (O : GURL) :
  IsOffTheRecord s = false ->
  store_ok (GetPrefs s) = true ->
  GetContentSetting (decide_all ds s) O =
  match last_decision (spec O) ds with
  | Some true => CONTENT_SETTING_ALLOW
  | Some false => CONTENT_SETTING_BLOCK
  | None => GetContentSetting s O
  end.
Proof.
  intros Hotr Hok. apply store_ok_StoreOk in Hok.
  revert s Hotr Hok. induction ds as [|d ds IH]; intros s Hotr Hok; [reflexivity|].
  change (decide_all (d :: ds) s) with (decide_all ds (Decide d s)).
  assert (Hotr' : IsOffTheRecord (Decide d s) = false)
    by now rewrite IsOffTheRecord_Decide.
  assert (Hok' : StoreOk (GetPrefs (Decide d s))).
  { rewrite GetPrefs_Decide. now apply PersistPermissionChange_StoreOk. }
  rewrite (IH _ Hotr' Hok'). cbn [last_decision].
  destruct (last_decision (spec O) ds) as [b'|]; [reflexivity|].
  rewrite GetContentSetting_Decide.
  destruct (String.eqb_spec (spec (fst d)) (spec O)) as [Heq|Hne].
  - destruct (snd d).
    + now apply GetContentSetting_after_allow.
    + apply GetContentSetting_after_deny; try assumption. apply Hok.
  - apply PersistPermissionChange_setting_of_other. congruence.
Qed.

Lemma last_decision_wins_witness :
  GetContentSetting
    (decide_all [(news_example, false); (mail_example, true); (news_example, true);
                 (mail_example, false)] fresh_profile)
    news_example = CONTENT_SETTING_ALLOW.
Proof.
  apply (last_decision_wins
           [(news_example, false); (mail_example, true); (news_example, true);
            (mail_example, false)] fresh_profile news_example);
    reflexivity.
Defined.

(** ** What a decision writes and posts *)

Lemma MoveOrigin_changed (v : string) (b : bool) (al dn : Values.ListValue) :
  let dest := if b then al else dn in
  let other := if b then dn else al in
  (In v dest -> ~ In v other ->
   allowed_changed (MoveOrigin v b al dn) || denied_changed (MoveOrigin v b al dn)
   = false) /\
  (~ In v dest \/ In v other ->
   allowed_changed (MoveOrigin v b al dn) || denied_changed (MoveOrigin v b al dn)
   = true).
Proof.
  destruct b; cbv zeta.
  - rewrite MoveOrigin_allow. cbn [allowed_changed denied_changed]. split.
    + intros Hin Hout.
      rewrite (AppendFacts.present_same _ _ Hin), (RemoveFacts.absent_same _ _ Hout).
      reflexivity.
    + intros [Hout|Hin].
      * destruct (snd (Values.AppendIfNotPresent v al)) eqn:E; [reflexivity|].
        apply AppendFacts.unchanged_iff in E. contradiction.
      * apply orb_true_iff. right. apply negb_true_iff. apply Z.eqb_neq.
        intros E. apply RemoveFacts.absent_iff in E. contradiction.
  - rewrite MoveOrigin_deny. cbn [allowed_changed denied_changed]. split.
    + intros Hin Hout.
      rewrite (AppendFacts.present_same _ _ Hin), (RemoveFacts.absent_same _ _ Hout).
      reflexivity.
    + intros [Hout|Hin].
      * apply orb_true_iff. right.
        destruct (snd (Values.AppendIfNotPresent v dn)) eqn:E; [reflexivity|].
        apply AppendFacts.unchanged_iff in E. contradiction.
      * apply orb_true_iff. left. apply negb_true_iff. apply Z.eqb_neq.
        intros E. apply RemoveFacts.absent_iff in E. contradiction.
Qed.

(** X3. On a regular profile PersistPermissionChange schedules a save of the
    preferences exactly when a list changes: nothing at all happens when the
    origin already is in the list of the decision and not in the other one,
    and otherwise one save is scheduled and nothing else.  The preference
    observers are never fired by the call, whether or not the service was
    observing, and the service observes all three preferences afterwards. *)
Theorem save_scheduled_when_changed (O : GURL) (b : bool) (s : State) :
  IsOffTheRecord s = false ->
  let dest := if b then allowed_sites (GetPrefs s) else denied_sites (GetPrefs s) in
  let other := if b then denied_sites (GetPrefs s) else allowed_sites (GetPrefs s) in
  let s' := PersistPermissionChange O b s in
  (In (spec O) dest -> ~ In (spec O) other -> events s' = events s) /\
  (~ In (spec O) dest \/ In (spec O) other ->
   events s' = events s ++ [ScheduleSavePersistentPrefs]) /\
  observers (GetPrefs s') = mkObservers true true true.
Proof.
  intros Hotr. cbv zeta.
  rewrite PersistPermissionChange_regular by assumption. simpl.
  destruct (MoveOrigin_changed (spec O) b (allowed_sites (GetPrefs s))
              (denied_sites (GetPrefs s))) as [Hsame Hchanged].
  split; [|split; [|reflexivity]].
  - intros Hin Hout. rewrite (Hsame Hin Hout). apply app_nil_r.
  - intros H. now rewrite (Hchanged H).
Qed.

Lemma save_scheduled_when_changed_witness :
  events (PersistPermissionChange news_example true settled_profile) =
  events settled_profile /\
  events (PersistPermissionChange mail_example true settled_profile) =
  events settled_profile ++ [ScheduleSavePersistentPrefs].
Proof.
  destruct (save_scheduled_when_changed news_example true settled_profile eq_refl)
    as (Hsame & _ & _).
  destruct (save_scheduled_when_changed mail_example true settled_profile eq_refl)
    as (_ & Hchanged & _).
  split.
  - apply Hsame; vm_compute; [now left | intros [H|[]]; discriminate H].
  - apply Hchanged. right. vm_compute. now left.
Defined.

Lemma posted_tasks_app (l1 l2 : list Event) :
  posted_tasks (l1 ++ l2) = posted_tasks l1 ++ posted_tasks l2.
Proof.
  induction l1 as [|e l1 IH]; [reflexivity|].
  destruct e; simpl; now rewrite IH.
Qed.

Lemma PersistPermissionChange_posted_tasks (o : GURL) (b : bool) (s : State) :
  posted_tasks (events (PersistPermissionChange o b s)) = posted_tasks (events s).
Proof.
  destruct (IsOffTheRecord s) eqn:E.
  - now rewrite PersistPermissionChange_off_the_record.
  - rewrite PersistPermissionChange_regular by assumption. simpl.
    rewrite posted_tasks_app.
    destruct (_ || _); simpl; now rewrite app_nil_r.
Qed.

(** X4. Whatever the profile and whatever the service observes, a run of
    GrantPermission and DenyPermission calls posts to the IO thread one cache
    update per call, CacheAllowedOrigin or CacheDeniedOrigin for the origin of
    the call, in the order of the calls, and posts nothing else: no list is
    sent whole. *)
Theorem cache_updates_follow_decisions (ds : list (GURL * bool)) (s : State) :
  posted_tasks (events (decide_all ds s)) =
  posted_tasks (events s) ++ map cache_update ds.
Proof.
  revert s. induction ds as [|d ds IH]; intros s.
  - simpl. now rewrite app_nil_r.
  - change (decide_all (d :: ds) s) with (decide_all ds (Decide d s)).
    assert (Hd : posted_tasks (events (Decide d s)) =
                 posted_tasks (events s) ++ [cache_update d]).
    { unfold Decide, cache_update, GrantPermission, DenyPermission.
      destruct (snd d); simpl; rewrite posted_tasks_app,
        PersistPermissionChange_posted_tasks; reflexivity. }
    rewrite IH, Hd, <- app_assoc. reflexivity.
Qed.

(** ** The default content setting and the lists *)

(** X5. GetContentSetting never answers the sentinel
    CONTENT_SETTING_DEFAULT: for every profile, stored default and origin the
    answer is ALLOW, BLOCK or ASK. *)
Theorem GetContentSetting_is_a_decision (s : State) (O : GURL) :
  GetContentSetting s O = CONTENT_SETTING_ALLOW \/
  GetContentSetting s O = CONTENT_SETTING_BLOCK \/
  GetContentSetting s O = CONTENT_SETTING_ASK.
Proof.
  unfold GetContentSetting.
  destruct (IsOffTheRecord s); [right; right; reflexivity|].
  destruct (existsb _ (GetAllowedOrigins s)); [left; reflexivity|].
  destruct (existsb _ (GetBlockedOrigins s)); [right; left; reflexivity|].
  unfold GetDefaultContentSetting.
  destruct (IntToContentSetting (default_content_setting (GetPrefs s))); simpl; auto.
Qed.

(** X6. SetDefaultContentSetting and GetDefaultContentSetting round-trip, for
    every profile, off the record or not: after the default is set to ALLOW,
    BLOCK or ASK it reads back as set, and after it is set to
    CONTENT_SETTING_DEFAULT it reads back as ASK.  Setting the default leaves
    both lists alone, so on a regular profile an origin in neither list takes
    the new default and a listed origin keeps its setting. *)
Theorem default_setting_round_trip
    (setting : ContentSetting) (s : State) (O : GURL) :
  let s' := SetDefaultContentSetting setting s in
  (setting = CONTENT_SETTING_DEFAULT ->
   GetDefaultContentSetting s' = CONTENT_SETTING_ASK) /\
  (setting <> CONTENT_SETTING_DEFAULT -> GetDefaultContentSetting s' = setting) /\
  allowed_sites (GetPrefs s') = allowed_sites (GetPrefs s) /\
  denied_sites (GetPrefs s') = denied_sites (GetPrefs s) /\
  (IsOffTheRecord s = false ->
   ~ In (spec O) (allowed_sites (GetPrefs s)) ->
   ~ In (spec O) (denied_sites (GetPrefs s)) ->
   GetContentSetting s' O = GetDefaultContentSetting s') /\
  (In (spec O) (allowed_sites (GetPrefs s)) \/
   In (spec O) (denied_sites (GetPrefs s)) ->
   GetContentSetting s' O = GetContentSetting s O).
Proof.
  cbv zeta.
  assert (Hp : GetPrefs (SetDefaultContentSetting setting s) =
               set_default (ContentSettingToInt
                              (if ContentSetting_eqb setting CONTENT_SETTING_DEFAULT
                               then kDefaultSetting else setting)) (GetPrefs s))
    by (unfold SetDefaultContentSetting; apply GetPrefs_SetInteger).
  assert (Ho : IsOffTheRecord (SetDefaultContentSetting setting s) = IsOffTheRecord s)
    by (unfold SetDefaultContentSetting; apply IsOffTheRecord_SetInteger).
  split; [|split; [|split; [|split; [|split]]]].
  - intros ->. unfold GetDefaultContentSetting. now rewrite Hp.
  - intros Hne. unfold GetDefaultContentSetting. rewrite Hp.
    destruct setting; try reflexivity. now elim Hne.
  - now rewrite Hp.
  - now rewrite Hp.
  - intros Hotr Ha Hd. apply GetContentSetting_unlisted.
    + now rewrite Ho.
    + now rewrite Hp.
    + now rewrite Hp.
  - intros Hin. unfold GetContentSetting, GetAllowedOrigins, GetBlockedOrigins.
    rewrite Ho, Hp. simpl.
    destruct (IsOffTheRecord s); [reflexivity|].
    destruct (existsb (String.eqb (spec O)) (allowed_sites (GetPrefs s))) eqn:Ea;
      [reflexivity|].
    destruct (existsb (String.eqb (spec O)) (denied_sites (GetPrefs s))) eqn:Ed;
      [reflexivity|].
    apply existsb_eqb_notIn in Ea. apply existsb_eqb_notIn in Ed. tauto.
Qed.

Lemma default_setting_round_trip_witness :
  GetDefaultContentSetting
    (SetDefaultContentSetting CONTENT_SETTING_DEFAULT settled_profile) =
  CONTENT_SETTING_ASK /\
  GetDefaultContentSetting
    (SetDefaultContentSetting CONTENT_SETTING_ALLOW settled_profile) =
  CONTENT_SETTING_ALLOW /\
  GetContentSetting
    (SetDefaultContentSetting CONTENT_SETTING_ALLOW settled_profile) unseen_example =
  CONTENT_SETTING_ALLOW /\
  GetContentSetting
    (SetDefaultContentSetting CONTENT_SETTING_ALLOW settled_profile) mail_example =
  CONTENT_SETTING_BLOCK.
Proof.
  destruct (default_setting_round_trip CONTENT_SETTING_DEFAULT settled_profile
              unseen_example) as (Hdefault & _).
  destruct (default_setting_round_trip CONTENT_SETTING_ALLOW settled_profile
              unseen_example) as (_ & Hset & _ & _ & Hunlisted & _).
  destruct (default_setting_round_trip CONTENT_SETTING_ALLOW settled_profile
              mail_example) as (_ & _ & _ & _ & _ & Hlisted).
  split; [apply Hdefault; reflexivity|].
  split; [apply Hset; discriminate|].
  split.
  - rewrite Hunlisted; [apply Hset; discriminate | reflexivity | |];
      vm_compute; intros [H|[]]; discriminate H.
  - rewrite Hlisted; [reflexivity|]. right. vm_compute. now left.
Defined.

(** X7. ResetAllOrigins empties both lists and leaves the default content
    setting alone, on every profile; so after it, on a regular profile, every
    origin has the default content setting. *)
Theorem ResetAllOrigins_back_to_default (s : State) (O : GURL) :
  let s' := ResetAllOrigins s in
  allowed_sites (GetPrefs s') = [] /\
  denied_sites (GetPrefs s') = [] /\
  GetDefaultContentSetting s' = GetDefaultContentSetting s /\
  (IsOffTheRecord s = false ->
   GetContentSetting s' O = GetDefaultContentSetting s).
Proof.
  cbv zeta. pose proof (GetPrefs_ResetAllOrigins s) as Hp.
  assert (Hd : GetDefaultContentSetting (ResetAllOrigins s) =
               GetDefaultContentSetting s)
    by (apply GetDefaultContentSetting_prefs; now rewrite Hp).
  split; [now rewrite Hp|]. split; [now rewrite Hp|]. split; [exact Hd|].
  intros Hotr. rewrite <- Hd. apply GetContentSetting_unlisted.
  - now rewrite IsOffTheRecord_ResetAllOrigins.
  - rewrite Hp. simpl. tauto.
  - rewrite Hp. simpl. tauto.
Qed.

Lemma ResetAllOrigins_back_to_default_witness :
  GetContentSetting (ResetAllOrigins settled_profile) news_example =
  CONTENT_SETTING_BLOCK.
Proof.
  destruct (ResetAllOrigins_back_to_default settled_profile news_example)
    as (_ & _ & _ & H).
  rewrite H; reflexivity.
Defined.

(** ** Resetting an origin, and the cache *)

(** X8. On a regular profile whose service observes the list, a reset of an
    origin that is in the targeted list posts the whole list as it is after
    the removal to the cache on the IO thread, then schedules a save, and
    does nothing else; where the list had no duplicates, the list posted no
    longer holds the origin. *)
Theorem reset_sends_list_to_cache (dcheck_is_on : bool) (O : GURL) (s : State) :
  IsOffTheRecord s = false ->
  (on_allowed (observers (GetPrefs s)) = true ->
   In (spec O) (allowed_sites (GetPrefs s)) ->
   let sent := fst (Values.Remove (spec O) (allowed_sites (GetPrefs s))) in
   events (snd (ResetAllowedOrigin dcheck_is_on O s)) =
   events s ++ [PostTask (SetCacheAllowedOrigins sent); ScheduleSavePersistentPrefs] /\
   (NoDup (allowed_sites (GetPrefs s)) -> ~ In (spec O) sent)) /\
  (on_denied (observers (GetPrefs s)) = true ->
   In (spec O) (denied_sites (GetPrefs s)) ->
   let sent := fst (Values.Remove (spec O) (denied_sites (GetPrefs s))) in
   events (snd (ResetBlockedOrigin dcheck_is_on O s)) =
   events s ++ [PostTask (SetCacheDeniedOrigins sent); ScheduleSavePersistentPrefs] /\
   (NoDup (denied_sites (GetPrefs s)) -> ~ In (spec O) sent)).
Proof.
  intros Hotr. split.
  - intros Hobs Hin. cbv zeta.
    split; [|apply RemoveFacts.gone_when_nodup].
    pose proof (ResetAllowedOrigin_regular dcheck_is_on O s Hotr) as H.
    pose proof (RemoveFacts.absent_iff (spec O) (allowed_sites (GetPrefs s))) as Habs.
    destruct (Values.Remove (spec O) (allowed_sites (GetPrefs s))) as [l i].
    simpl in Habs. rewrite H.
    destruct (Z.eqb_spec i (-1)) as [Hi|Hi]; [exfalso; tauto|].
    rewrite andb_false_r. simpl.
    unfold ScopedPrefUpdate, FireObservers. simpl. rewrite Hobs. simpl.
    now rewrite <- app_assoc.
  - intros Hobs Hin. cbv zeta.
    split; [|apply RemoveFacts.gone_when_nodup].
    pose proof (ResetBlockedOrigin_regular dcheck_is_on O s Hotr) as H.
    pose proof (RemoveFacts.absent_iff (spec O) (denied_sites (GetPrefs s))) as Habs.
    destruct (Values.Remove (spec O) (denied_sites (GetPrefs s))) as [l i].
    simpl in Habs. rewrite H.
    destruct (Z.eqb_spec i (-1)) as [Hi|Hi]; [exfalso; tauto|].
    rewrite andb_false_r. simpl.
    unfold ScopedPrefUpdate, FireObservers. simpl. rewrite Hobs. simpl.
    now rewrite <- app_assoc.
Qed.

Lemma reset_sends_list_to_cache_witness :
  events (snd (ResetAllowedOrigin true news_example settled_profile)) =
  events settled_profile ++
  [PostTask (SetCacheAllowedOrigins []); ScheduleSavePersistentPrefs].
Proof.
  destruct (reset_sends_list_to_cache true news_example settled_profile eq_refl)
    as (Hallowed & _).
  apply Hallowed; [reflexivity | vm_compute; now left].
Defined.

Lemma Remove_appended (v : string) (l : Values.ListValue) :
  ~ In v l -> fst (Values.Remove v (l ++ [v])) = l.
Proof.
  induction l as [|x l IH]; simpl; intros Hout.
  - now rewrite String.eqb_refl.
  - destruct (String.eqb_spec x v) as [->|Hne]; [exfalso; auto|].
    assert (Hl : ~ In v l) by tauto. specialize (IH Hl).
    destruct (Values.Remove v (l ++ [v])) as [r i]. simpl in *. now rewrite IH.
Qed.

(** X9. On a regular profile, recording a decision for an origin that is in
    neither list and then resetting the origin in the list of the decision
    gives back both lists exactly as they were, with the default content
    setting untouched; the reset returns in either build. *)
Theorem decision_then_reset_restores (dcheck_is_on : bool) (O : GURL) (s : State) :
  IsOffTheRecord s = false ->
  ~ In (spec O) (allowed_sites (GetPrefs s)) ->
  ~ In (spec O) (denied_sites (GetPrefs s)) ->
  let granted := ResetAllowedOrigin dcheck_is_on O (PersistPermissionChange O true s) in
  let denied := ResetBlockedOrigin dcheck_is_on O (PersistPermissionChange O false s) in
  (fst granted = Returned tt /\
   allowed_sites (GetPrefs (snd granted)) = allowed_sites (GetPrefs s) /\
   denied_sites (GetPrefs (snd granted)) = denied_sites (GetPrefs s) /\
   default_content_setting (GetPrefs (snd granted)) =
   default_content_setting (GetPrefs s)) /\
  (fst denied = Returned tt /\
   allowed_sites (GetPrefs (snd denied)) = allowed_sites (GetPrefs s) /\
   denied_sites (GetPrefs (snd denied)) = denied_sites (GetPrefs s) /\
   default_content_setting (GetPrefs (snd denied)) =
   default_content_setting (GetPrefs s)).
Proof.
  intros Hotr Ha Hd. cbv zeta.
  assert (Hallow : GetPrefs (PersistPermissionChange O true s) =
                   mkPrefs (default_content_setting (GetPrefs s))
                           (allowed_sites (GetPrefs s) ++ [spec O])
                           (denied_sites (GetPrefs s))
                           (mkObservers true true true)).
  { rewrite PersistPermissionChange_regular by assumption. cbn [GetPrefs].
    rewrite MoveOrigin_allow. cbn [allowed_after denied_after].
    rewrite (RemoveFacts.absent_same _ _ Hd). unfold Values.AppendIfNotPresent.
    apply existsb_eqb_notIn in Ha. now rewrite Ha. }
  assert (Hdeny : GetPrefs (PersistPermissionChange O false s) =
                  mkPrefs (default_content_setting (GetPrefs s))
                          (allowed_sites (GetPrefs s))
                          (denied_sites (GetPrefs s) ++ [spec O])
                          (mkObservers true true true)).
  { rewrite PersistPermissionChange_regular by assumption. cbn [GetPrefs].
    rewrite MoveOrigin_deny. cbn [allowed_after denied_after].
    rewrite (RemoveFacts.absent_same _ _ Ha). unfold Values.AppendIfNotPresent.
    apply existsb_eqb_notIn in Hd. now rewrite Hd. }
  split.
  - split.
    + apply ResetAllowedOrigin_returns. rewrite Hallow. simpl.
      apply in_or_app. right. now left.
    + rewrite ResetAllowedOrigin_prefs
        by now rewrite PersistPermissionChange_IsOffTheRecord.
      rewrite Hallow. simpl. now rewrite (Remove_appended _ _ Ha).
  - split.
    + apply ResetBlockedOrigin_returns. rewrite Hdeny. simpl.
      apply in_or_app. right. now left.
    + rewrite ResetBlockedOrigin_prefs
        by now rewrite PersistPermissionChange_IsOffTheRecord.
      rewrite Hdeny. simpl. now rewrite (Remove_appended _ _ Hd).
Qed.

Lemma decision_then_reset_restores_witness :
  allowed_sites
    (GetPrefs (snd (ResetAllowedOrigin true unseen_example
                      (PersistPermissionChange unseen_example true settled_profile)))) =
  allowed_sites (GetPrefs settled_profile).
Proof.
  assert (Ha : ~ In (spec unseen_example) (allowed_sites (GetPrefs settled_profile)))
    by (vm_compute; intros [H|[]]; discriminate H).
  assert (Hd : ~ In (spec unseen_example) (denied_sites (GetPrefs settled_profile)))
    by (vm_compute; intros [H|[]]; discriminate H).
  exact (proj1 (proj2 (proj1 (decision_then_reset_restores true unseen_example
                                settled_profile eq_refl Ha Hd)))).
Defined.

(** ** The permission infobar *)

Lemma histogram_samples_app (l1 l2 : list Event) :
  histogram_samples (l1 ++ l2) = histogram_samples l1 ++ histogram_samples l2.
Proof.
  induction l1 as [|e l1 IH]; [reflexivity|].
  destruct e; simpl; now rewrite IH.
Qed.

Lemma PersistPermissionChange_histogram_samples (o : GURL) (b : bool) (s : State) :
  histogram_samples (events (PersistPermissionChange o b s)) =
  histogram_samples (events s).
Proof.
  destruct (IsOffTheRecord s) eqn:E.
  - now rewrite PersistPermissionChange_off_the_record.
  - rewrite PersistPermissionChange_regular by assumption. simpl.
    rewrite histogram_samples_app.
    destruct (_ || _); simpl; now rewrite app_nil_r.
Qed.

(** X10. Every permission infobar that the user accepts, denies or dismisses
    adds exactly one histogram sample, named after what the user did:
    Allowed, Denied, or Ignored when the infobar was closed with no button
    pressed. *)
Theorem one_histogram_sample_per_infobar
    (o : InfoBarDelegate.Outcome) (d : NotificationPermissionInfoBarDelegate)
    (s : State) :
  action_taken_ d = false ->
  histogram_samples (events (InfoBarDelegate.Resolve o d s)) =
  histogram_samples (events s) ++
  [match o with
   | InfoBarDelegate.UserAccepts => "NotificationPermissionRequest.Allowed"
   | InfoBarDelegate.UserDenies => "NotificationPermissionRequest.Denied"
   | InfoBarDelegate.UserDismisses => "NotificationPermissionRequest.Ignored"
   end%string].
Proof.
  intros Hfresh.
  destruct o; unfold InfoBarDelegate.Resolve, InfoBarDelegate.Accept,
    InfoBarDelegate.Cancel, InfoBarDelegate.InfoBarClosed;
    cbv iota beta zeta.
  - cbn [action_taken_ InfoBarDelegate.set_action_taken negb].
    unfold GrantPermission. simpl. rewrite !histogram_samples_app.
    rewrite PersistPermissionChange_histogram_samples. simpl.
    rewrite histogram_samples_app. simpl. now rewrite !app_nil_r.
  - cbn [action_taken_ InfoBarDelegate.set_action_taken negb].
    unfold DenyPermission. simpl. rewrite !histogram_samples_app.
    rewrite PersistPermissionChange_histogram_samples. simpl.
    rewrite histogram_samples_app. simpl. now rewrite !app_nil_r.
  - rewrite Hfresh. simpl. rewrite !histogram_samples_app. simpl.
    now rewrite app_nil_r.
Qed.

Lemma one_histogram_sample_per_infobar_witness :
  histogram_samples
    (events (InfoBarDelegate.Resolve InfoBarDelegate.UserDismisses
               (mkDelegate news_example "news.example" 7 1 42 false)
               fresh_profile)) =
  ["NotificationPermissionRequest.Ignored"%string].
Proof.
  apply (one_histogram_sample_per_infobar InfoBarDelegate.UserDismisses
           (mkDelegate news_example "news.example" 7 1 42 false) fresh_profile).
  reflexivity.
Defined.

(** A request with a tab is answered at once, or an infobar goes up and the
    user's answer to it is taken. *)
Lemma PermissionRequest_with_tab (O : GURL) (p r c : Z) (tab : TabContents)
    (o : InfoBarDelegate.Outcome) (s : State) :
  PermissionRequest O p r c (Some tab) o s =
  if ContentSetting_eqb (GetContentSetting s O) CONTENT_SETTING_ASK
  then InfoBarDelegate.Resolve o
         (mkDelegate O (DisplayNameForOrigin s O) p r c false)
         (emit (AddInfoBar tab (mkDelegate O (DisplayNameForOrigin s O) p r c false)) s)
  else emit (PostTask (NotificationPermissionCallbackTask p r c)) s.
Proof.
  unfold PermissionRequest. rewrite RequestPermission_events, skipn_events_emitted.
  unfold RequestPermission.
  destruct (ContentSetting_eqb (GetContentSetting s O) CONTENT_SETTING_ASK);
    reflexivity.
Qed.

Lemma GetPrefs_InfoBarClosed (d : NotificationPermissionInfoBarDelegate) (s : State) :
  GetPrefs (InfoBarDelegate.InfoBarClosed d s) = GetPrefs s.
Proof. unfold InfoBarDelegate.InfoBarClosed. destruct (action_taken_ d); reflexivity. Qed.

Lemma IsOffTheRecord_InfoBarClosed (d : NotificationPermissionInfoBarDelegate)
    (s : State) :
  IsOffTheRecord (InfoBarDelegate.InfoBarClosed d s) = IsOffTheRecord s.
Proof. unfold InfoBarDelegate.InfoBarClosed. destruct (action_taken_ d); reflexivity. Qed.

Lemma ASK_means_unlisted (s : State) (O : GURL) :
  IsOffTheRecord s = false ->
  ContentSetting_eqb (GetContentSetting s O) CONTENT_SETTING_ASK = true ->
  ~ In (spec O) (allowed_sites (GetPrefs s)).
Proof.
  intros Hotr Hask Hin.
  rewrite (GetContentSetting_allowed s O Hotr Hin) in Hask. discriminate.
Qed.

Lemma GetContentSetting_not_sentinel (s : State) (O : GURL) :
  GetContentSetting s O <> CONTENT_SETTING_DEFAULT.
Proof.
  unfold GetContentSetting, GetDefaultContentSetting.
  destruct (IsOffTheRecord s); [discriminate|].
  destruct (existsb _ (GetAllowedOrigins s)); [discriminate|].
  destruct (existsb _ (GetBlockedOrigins s)); [discriminate|].
  destruct (IntToContentSetting (default_content_setting (GetPrefs s)));
    discriminate.
Qed.

(** When the answer to the infobar is taken by the service that put it up,
    and the profile is a regular one: an accepted or denied origin is ALLOW or
    BLOCK and is answered at once the next time. *)
Lemma answer_taken_by_requesting_service
    (O : GURL) (p r c : Z) (tab : TabContents) (o : InfoBarDelegate.Outcome)
    (p' r' c' : Z) (tab' : TabContents) (s : State) :
  IsOffTheRecord s = false ->
  let s1 := PermissionRequest O p r c (Some tab) o s in
  (o <> InfoBarDelegate.UserDismisses ->
   (GetContentSetting s1 O = CONTENT_SETTING_ALLOW \/
    GetContentSetting s1 O = CONTENT_SETTING_BLOCK) /\
   events (RequestPermission O p' r' c' (Some tab') s1) =
   events s1 ++ [PostTask (NotificationPermissionCallbackTask p' r' c')]) /\
  (o = InfoBarDelegate.UserDismisses -> GetPrefs s1 = GetPrefs s).
Proof.
  intros Hotr. cbv zeta. rewrite PermissionRequest_with_tab.
  assert (Hanswered : forall s1,
            GetContentSetting s1 O = CONTENT_SETTING_ALLOW \/
            GetContentSetting s1 O = CONTENT_SETTING_BLOCK ->
            (GetContentSetting s1 O = CONTENT_SETTING_ALLOW \/
             GetContentSetting s1 O = CONTENT_SETTING_BLOCK) /\
            events (RequestPermission O p' r' c' (Some tab') s1) =
            events s1 ++ [PostTask (NotificationPermissionCallbackTask p' r' c')]).
  { intros s1 H. split; [exact H|]. rewrite RequestPermission_events.
    destruct H as [H|H]; rewrite H; reflexivity. }
  destruct (ContentSetting_eqb (GetContentSetting s O) CONTENT_SETTING_ASK) eqn:Hask.
  - pose proof (ASK_means_unlisted s O Hotr Hask) as Hout.
    set (d := mkDelegate O (DisplayNameForOrigin s O) p r c false).
    set (s0 := emit (AddInfoBar tab d) s).
    split.
    + intros Hanswer. apply Hanswered. destruct o; [left|right|now elim Hanswer].
      * unfold InfoBarDelegate.Resolve, InfoBarDelegate.Accept. cbv iota beta zeta.
        apply GetContentSetting_allowed.
        -- rewrite IsOffTheRecord_InfoBarClosed. unfold GrantPermission. simpl.
           now rewrite PersistPermissionChange_IsOffTheRecord.
        -- rewrite GetPrefs_InfoBarClosed. unfold GrantPermission. simpl.
           rewrite PersistPermissionChange_regular by exact Hotr.
           rewrite MoveOrigin_allow. simpl. apply AppendFacts.present_after.
      * unfold InfoBarDelegate.Resolve, InfoBarDelegate.Cancel. cbv iota beta zeta.
        apply GetContentSetting_denied.
        -- rewrite IsOffTheRecord_InfoBarClosed. unfold DenyPermission. simpl.
           now rewrite PersistPermissionChange_IsOffTheRecord.
        -- rewrite GetPrefs_InfoBarClosed. unfold DenyPermission. simpl.
           rewrite PersistPermissionChange_regular by exact Hotr.
           rewrite MoveOrigin_deny. simpl. intros Hin. apply Hout.
           eapply RemoveFacts.kept_subset. exact Hin.
        -- rewrite GetPrefs_InfoBarClosed. unfold DenyPermission. simpl.
           rewrite PersistPermissionChange_regular by exact Hotr.
           rewrite MoveOrigin_deny. simpl. apply AppendFacts.present_after.
    + intros ->. unfold InfoBarDelegate.Resolve.
      now rewrite GetPrefs_InfoBarClosed.
  - split; [|reflexivity]. intros _. apply Hanswered.
    change (GetContentSetting (emit (PostTask (NotificationPermissionCallbackTask p r c)) s) O)
      with (GetContentSetting s O).
    pose proof (GetContentSetting_not_sentinel s O) as Hns.
    destruct (GetContentSetting s O); auto; [now elim Hns | discriminate Hask].
Qed.

(** The same for an off-the-record profile: the trace of the request, with
    no preference changed. *)
Lemma off_the_record_answer_taken_by_requesting_service
    (O : GURL) (p r c : Z) (tab : TabContents) (o : InfoBarDelegate.Outcome)
    (p' r' c' : Z) (tab' : TabContents) (s : State) :
  IsOffTheRecord s = true ->
  let s1 := PermissionRequest O p r c (Some tab) o s in
  let d := mkDelegate O (DisplayNameForOrigin s O) p r c false in
  let notice := PostTask (NotificationPermissionCallbackTask p r c) in
  GetPrefs s1 = GetPrefs s /\
  events s1 =
  events s ++
  match o with
  | InfoBarDelegate.UserAccepts =>
      [AddInfoBar tab d;
       UMA_HISTOGRAM_COUNTS "NotificationPermissionRequest.Allowed";
       PostTask (CacheAllowedOrigin O); notice]
  | InfoBarDelegate.UserDenies =>
      [AddInfoBar tab d;
       UMA_HISTOGRAM_COUNTS "NotificationPermissionRequest.Denied";
       PostTask (CacheDeniedOrigin O); notice]
  | InfoBarDelegate.UserDismisses =>
      [AddInfoBar tab d;
       UMA_HISTOGRAM_COUNTS "NotificationPermissionRequest.Ignored"; notice]
  end /\
  events (RequestPermission O p' r' c' (Some tab') s1) =
  events s1 ++
  [AddInfoBar tab' (mkDelegate O (DisplayNameForOrigin s1 O) p' r' c' false)].
Proof.
  intros Hotr. cbv zeta.
  assert (Hask : forall st, IsOffTheRecord st = true ->
            ContentSetting_eqb (GetContentSetting st O) CONTENT_SETTING_ASK = true).
  { intros st H. unfold GetContentSetting. now rewrite H. }
  rewrite PermissionRequest_with_tab, (Hask s Hotr).
  set (d := mkDelegate O (DisplayNameForOrigin s O) p r c false).
  assert (Hemit : forall e st, IsOffTheRecord st = true ->
            IsOffTheRecord (emit e st) = true) by (intros e st H; exact H).
  assert (Hs1 : IsOffTheRecord
                  (InfoBarDelegate.Resolve o d (emit (AddInfoBar tab d) s)) = true).
  { destruct o; unfold InfoBarDelegate.Resolve, InfoBarDelegate.Accept,
      InfoBarDelegate.Cancel; cbv iota beta zeta;
      rewrite IsOffTheRecord_InfoBarClosed; try exact Hotr;
      unfold GrantPermission, DenyPermission; simpl;
      now rewrite PersistPermissionChange_IsOffTheRecord. }
  split; [|split].
  - destruct o; unfold InfoBarDelegate.Resolve, InfoBarDelegate.Accept,
      InfoBarDelegate.Cancel; cbv iota beta zeta;
      rewrite GetPrefs_InfoBarClosed; try reflexivity;
      unfold GrantPermission, DenyPermission; simpl;
      now rewrite PersistPermissionChange_off_the_record by exact Hotr.
  - destruct o; unfold InfoBarDelegate.Resolve, InfoBarDelegate.Accept,
      InfoBarDelegate.Cancel, InfoBarDelegate.InfoBarClosed; cbv iota beta zeta.
    + unfold GrantPermission. simpl.
      rewrite PersistPermissionChange_off_the_record by exact Hotr. simpl.
      now rewrite <- !app_assoc.
    + unfold DenyPermission. simpl.
      rewrite PersistPermissionChange_off_the_record by exact Hotr. simpl.
      now rewrite <- !app_assoc.
    + simpl. now rewrite <- !app_assoc.
  - rewrite RequestPermission_events. now rewrite (Hask _ Hs1).
Qed.

(** ** The name shown for an origin *)

Lemma GetExtensionByURL_unknown (exts : list (string * string)) (url : GURL) :
  ~ In (host url) (map fst exts) -> GetExtensionByURL exts url = None.
Proof.
  induction exts as [|[id name] exts IH]; simpl; intros Hout; [reflexivity|].
  destruct (String.eqb_spec id (host url)) as [->|Hne]; [exfalso; auto|].
  apply IH. tauto.
Qed.

Lemma GetExtensionByURL_known (exts : list (string * string)) (url : GURL) :
  In (host url) (map fst exts) ->
  exists name, GetExtensionByURL exts url = Some name /\ In (host url, name) exts.
Proof.
  induction exts as [|[id name] exts IH]; simpl; intros Hin; [contradiction|].
  destruct (String.eqb_spec id (host url)) as [->|Hne].
  - exists name. split; [reflexivity | now left].
  - destruct Hin as [Hin|Hin]; [contradiction|].
    destruct (IH Hin) as [n [Hn Hmem]]. exists n. split; [exact Hn | now right].
Qed.

(** X13. DisplayNameForOrigin answers the host of the origin unless the
    origin is an extension URL whose host is the id of an extension the
    profile's extensions service knows: it falls back to the host when the
    scheme is not the extension scheme, when the profile has no extensions
    service, and when the service has no extension for the host.  For a known
    extension it answers a name registered under that host. *)
Theorem DisplayNameForOrigin_falls_back_to_host (s : State) (origin : GURL) :
  (SchemeIs origin kExtensionScheme = false ->
   DisplayNameForOrigin s origin = host origin) /\
  (GetExtensionsService s = None ->
   DisplayNameForOrigin s origin = host origin) /\
  (forall exts, GetExtensionsService s = Some exts ->
     ~ In (host origin) (map fst exts) ->
     DisplayNameForOrigin s origin = host origin) /\
  (forall exts, GetExtensionsService s = Some exts ->
     SchemeIs origin kExtensionScheme = true ->
     In (host origin) (map fst exts) ->
     In (host origin, DisplayNameForOrigin s origin) exts).
Proof.
  unfold DisplayNameForOrigin. split; [|split; [|split]].
  - now intros ->.
  - intros ->. now destruct (SchemeIs origin kExtensionScheme).
  - intros exts -> Hout. rewrite (GetExtensionByURL_unknown _ _ Hout).
    now destruct (SchemeIs origin kExtensionScheme).
  - intros exts -> -> Hin.
    destruct (GetExtensionByURL_known _ _ Hin) as [name [-> Hmem]]. exact Hmem.
Qed.

Lemma DisplayNameForOrigin_falls_back_to_host_witness :
  DisplayNameForOrigin extension_profile news_example = "news.example"%string /\
  DisplayNameForOrigin fresh_profile extension_example = "abcdef"%string /\
  In (host extension_example,
      DisplayNameForOrigin extension_profile extension_example)
     [("abcdef", "Mail Checker")%string].
Proof.
  destruct (DisplayNameForOrigin_falls_back_to_host extension_profile news_example)
    as (Hscheme & _).
  destruct (DisplayNameForOrigin_falls_back_to_host fresh_profile extension_example)
    as (_ & Hnone & _).
  destruct (DisplayNameForOrigin_falls_back_to_host extension_profile
              extension_example) as (_ & _ & _ & Hknown).
  split; [apply Hscheme; reflexivity|].
  split; [apply Hnone; reflexivity|].
  apply Hknown; [reflexivity | reflexivity | vm_compute; now left].
Defined.

(** ** Showing and cancelling *)



(** ** Delivery of the completion notice *)

Lemma RenderViewHost_FromID_live (hosts : list (Z * Z)) (p r : Z) :
  In (p, r) hosts -> RenderViewHost_FromID hosts p r = Some (p, r).
Proof.
  unfold RenderViewHost_FromID.
  induction hosts as [|[hp hr] hosts IH]; simpl; intros Hin; [contradiction|].
  destruct (Z.eqb_spec hp p) as [->|Hp]; destruct (Z.eqb_spec hr r) as [->|Hr];
    simpl; try reflexivity;
    (destruct Hin as [Hin|Hin]; [congruence | now apply IH]).
Qed.

Lemma RenderViewHost_FromID_gone (hosts : list (Z * Z)) (p r : Z) :
  ~ In (p, r) hosts -> RenderViewHost_FromID hosts p r = None.
Proof.
  unfold RenderViewHost_FromID.
  induction hosts as [|[hp hr] hosts IH]; simpl; intros Hout; [reflexivity|].
  destruct (Z.eqb_spec hp p) as [->|Hp]; destruct (Z.eqb_spec hr r) as [->|Hr];
    simpl; try (apply IH; tauto).
  exfalso. apply Hout. now left.
Qed.

Lemma PermissionRequest_completion_notices (O : GURL) (p r c : Z)
    (tab : TabContents) (o : InfoBarDelegate.Outcome) (s : State) :
  completion_notices (events (PermissionRequest O p r c (Some tab) o s)) =
  completion_notices (events s) ++ [(p, r, c)].
Proof.
  rewrite PermissionRequest_with_tab.
  destruct (ContentSetting_eqb (GetContentSetting s O) CONTENT_SETTING_ASK).
  - rewrite Resolve_completion_notices. simpl.
    rewrite completion_notices_app. simpl. now rewrite app_nil_r.
  - simpl. now rewrite completion_notices_app.
Qed.

(** X16. When the IO thread runs the completion tasks of a permission
    request made with a tab, the view that asked, if it is still alive, gets
    exactly one ViewMsg_PermissionRequestDone carrying its route and the
    request's callback context, whatever the user did with the infobar; if the
    view is gone, nothing is sent and nothing fails. *)
Theorem completion_reaches_live_view
    (hosts : list (Z * Z)) (O : GURL) (p r c : Z) (tab : TabContents)
    (o : InfoBarDelegate.Outcome) (s : State) :
  let s1 := PermissionRequest O p r c (Some tab) o s in
  (In (p, r) hosts ->
   deliver hosts (events s1) =
   deliver hosts (events s) ++ [((p, r), ViewMsg_PermissionRequestDone r c)]) /\
  (~ In (p, r) hosts -> deliver hosts (events s1) = deliver hosts (events s)).
Proof.
  cbv zeta. unfold deliver. rewrite PermissionRequest_completion_notices.
  rewrite flat_map_app. simpl. unfold Run. split.
  - intros Hin. rewrite (RenderViewHost_FromID_live _ _ _ Hin). reflexivity.
  - intros Hout. rewrite (RenderViewHost_FromID_gone _ _ _ Hout). simpl.
    now rewrite app_nil_r.
Qed.

Lemma completion_reaches_live_view_witness :
  deliver [(3, 4); (7, 1)]
    (events (PermissionRequest unseen_example 7 1 42 (Some 5)
               InfoBarDelegate.UserDismisses fresh_profile)) =
  [((7, 1), ViewMsg_PermissionRequestDone 1 42)] /\
  deliver [(3, 4)]
    (events (PermissionRequest unseen_example 7 1 42 (Some 5)
               InfoBarDelegate.UserAccepts fresh_profile)) = [].
Proof.
  split.
  - apply (proj1 (completion_reaches_live_view [(3, 4); (7, 1)] unseen_example
                    7 1 42 5 InfoBarDelegate.UserDismisses fresh_profile)).
    right. now left.
  - apply (proj2 (completion_reaches_live_view [(3, 4)] unseen_example
                    7 1 42 5 InfoBarDelegate.UserAccepts fresh_profile)).
    intros [H|[]]. discriminate H.
Defined.

(** ** More on the default, the flow and the resets *)

(** X17. When SetDefaultContentSetting changes the stored integer and the
    service observes the preference, the observer posts the new default to
    the cache on the IO thread, as a setting and never as the sentinel; a
    service that does not observe the preference, as the one of an
    off-the-record profile, posts nothing. *)
Theorem default_change_reaches_cache (setting : ContentSetting) (s : State) :
  let written := match setting with
                 | CONTENT_SETTING_DEFAULT => CONTENT_SETTING_ASK
                 | _ => setting
                 end in
  let s' := SetDefaultContentSetting setting s in
  default_content_setting (GetPrefs s) <> ContentSettingToInt written ->
  (on_default (observers (GetPrefs s)) = true ->
   posted_tasks (events s') =
   posted_tasks (events s) ++ [SetCacheDefaultContentSetting written]) /\
  (on_default (observers (GetPrefs s)) = false ->
   posted_tasks (events s') = posted_tasks (events s)).
Proof.
  cbv zeta. intros Hchanged.
  assert (Hw : (if ContentSetting_eqb setting CONTENT_SETTING_DEFAULT
                then kDefaultSetting else setting) =
               match setting with
               | CONTENT_SETTING_DEFAULT => CONTENT_SETTING_ASK
               | _ => setting
               end) by now destruct setting.
  unfold SetDefaultContentSetting, SetInteger. rewrite Hw.
  apply Z.eqb_neq in Hchanged. rewrite Hchanged.
  unfold FireObservers, observes. simpl. split; intros ->; [|reflexivity].
  simpl. rewrite posted_tasks_app. simpl.
  now rewrite IntToContentSetting_ContentSettingToInt.
Qed.

Lemma default_change_reaches_cache_witness :
  posted_tasks (events (SetDefaultContentSetting CONTENT_SETTING_DEFAULT
                          settled_profile)) =
  posted_tasks (events settled_profile) ++
  [SetCacheDefaultContentSetting CONTENT_SETTING_ASK] /\
  posted_tasks (events (SetDefaultContentSetting CONTENT_SETTING_ALLOW
                          off_the_record_settled_profile)) =
  posted_tasks (events off_the_record_settled_profile).
Proof.
  split.
  - apply (default_change_reaches_cache CONTENT_SETTING_DEFAULT settled_profile);
      [discriminate | reflexivity].
  - apply (default_change_reaches_cache CONTENT_SETTING_ALLOW
             off_the_record_settled_profile);
      [discriminate | reflexivity].
Defined.

Lemma GetPrefs_Resolve (o : InfoBarDelegate.Outcome)
    (d : NotificationPermissionInfoBarDelegate) (s : State) :
  GetPrefs (InfoBarDelegate.Resolve o d s) =
  match o with
  | InfoBarDelegate.UserAccepts =>
      GetPrefs (PersistPermissionChange (origin_ d) true
                  (emit (UMA_HISTOGRAM_COUNTS "NotificationPermissionRequest.Allowed") s))
  | InfoBarDelegate.UserDenies =>
      GetPrefs (PersistPermissionChange (origin_ d) false
                  (emit (UMA_HISTOGRAM_COUNTS "NotificationPermissionRequest.Denied") s))
  | InfoBarDelegate.UserDismisses => GetPrefs s
  end.
Proof.
  destruct o; unfold InfoBarDelegate.Resolve, InfoBarDelegate.Accept,
    InfoBarDelegate.Cancel; cbv iota beta zeta;
    rewrite GetPrefs_InfoBarClosed; reflexivity.
Qed.

(** X18. A permission request, from the call of RequestPermission to the
    user's answer to the infobar, keeps the lists within the data model: when
    no origin is listed twice and none is in both lists before, the same
    holds after, with or without a tab and whatever the user does. *)
Theorem PermissionRequest_keeps_data_model
    (O : GURL) (p r c : Z) (tab : option TabContents)
    (o : InfoBarDelegate.Outcome) (s : State) :
  store_ok (GetPrefs s) = true ->
  store_ok (GetPrefs (PermissionRequest O p r c tab o s)) = true.
Proof.
  intros Hok. apply store_ok_StoreOk. apply store_ok_StoreOk in Hok.
  destruct tab as [tab|].
  2:{ unfold PermissionRequest. cbn [RequestPermission].
      now rewrite skipn_all. }
  rewrite PermissionRequest_with_tab.
  destruct (ContentSetting_eqb (GetContentSetting s O) CONTENT_SETTING_ASK);
    [|exact Hok].
  rewrite GetPrefs_Resolve.
  destruct o; [| |exact Hok]; now apply PersistPermissionChange_StoreOk.
Qed.

Lemma PermissionRequest_keeps_data_model_witness :
  store_ok (GetPrefs (PermissionRequest unseen_example 7 1 42 (Some 5)
                        InfoBarDelegate.UserAccepts settled_profile)) = true.
Proof.
  apply (PermissionRequest_keeps_data_model unseen_example 7 1 42 (Some 5)
           InfoBarDelegate.UserAccepts settled_profile).
  reflexivity.
Defined.



(** X20. A reset of one origin leaves every origin with another spec with
    the content setting it had, in either build and on every profile; and
    ResetAllowedOrigin never touches the denied list, nor ResetBlockedOrigin
    the allowed list. *)
Theorem reset_leaves_other_origins
    (dcheck_is_on : bool) (O O' : GURL) (s : State) :
  spec O' <> spec O ->
  let ra := snd (ResetAllowedOrigin dcheck_is_on O s) in
  let rb := snd (ResetBlockedOrigin dcheck_is_on O s) in
  GetContentSetting ra O' = GetContentSetting s O' /\
  GetContentSetting rb O' = GetContentSetting s O' /\
  denied_sites (GetPrefs ra) = denied_sites (GetPrefs s) /\
  allowed_sites (GetPrefs rb) = allowed_sites (GetPrefs s).
Proof.
  intros Hne. cbv zeta. destruct (IsOffTheRecord s) eqn:Hotr.
  - rewrite ResetAllowedOrigin_off_the_record, ResetBlockedOrigin_off_the_record
      by assumption. simpl. auto.
  - pose proof (ResetAllowedOrigin_prefs dcheck_is_on O s Hotr) as Hpa.
    pose proof (ResetBlockedOrigin_prefs dcheck_is_on O s Hotr) as Hpb.
    pose proof (ResetAllowedOrigin_IsOffTheRecord dcheck_is_on O s) as Hoa.
    pose proof (ResetBlockedOrigin_IsOffTheRecord dcheck_is_on O s) as Hob.
    split; [|split; [|split]].
    + apply GetContentSetting_same; try assumption; rewrite Hpa; simpl;
        try reflexivity.
      split; [apply RemoveFacts.kept_subset | now apply RemoveFacts.others_kept].
    + apply GetContentSetting_same; try assumption; rewrite Hpb; simpl;
        try reflexivity.
      split; [apply RemoveFacts.kept_subset | now apply RemoveFacts.others_kept].
    + now rewrite Hpa.
    + now rewrite Hpb.
Qed.

Lemma reset_leaves_other_origins_witness :
  GetContentSetting (snd (ResetAllowedOrigin true news_example settled_profile))
                    mail_example =
  GetContentSetting settled_profile mail_example.
Proof.
  apply (reset_leaves_other_origins true news_example mail_example settled_profile).
  discriminate.
Defined.

(** ** The infobar in the tab of the requesting profile *)

Lemma service_put_service (P : ProfileId) (s : State) (b : Browser) :
  service (put_service P s b) P = s.
Proof. unfold put_service. simpl. now rewrite Z.eqb_refl. Qed.

Lemma tab_profile_put_service (P : ProfileId) (s : State) (b : Browser)
    (tab : TabContents) :
  tab_profile (put_service P s b) tab = tab_profile b tab.
Proof. reflexivity. Qed.

(** In a tab of profile [P] the answers go to the service of [P]. *)
Lemma answers_in_own_tab (o : InfoBarDelegate.Outcome) (tab : TabContents)
    (P : ProfileId) (ds : list NotificationPermissionInfoBarDelegate)
    (b : Browser) :
  tab_profile b tab = P ->
  service (fold_left (fun bb d => ResolveInTab o tab d bb) ds b) P =
  fold_left (fun st d => InfoBarDelegate.Resolve o d st) ds (service b P).
Proof.
  revert b. induction ds as [|d ds IH]; intros b Hown; [reflexivity|].
  cbn [fold_left]. rewrite IH.
  - unfold ResolveInTab. now rewrite Hown, service_put_service.
  - unfold ResolveInTab. now rewrite tab_profile_put_service.
Qed.

Lemma PermissionRequestIn_own_tab (P : ProfileId) (O : GURL) (p r c : Z)
    (tab : TabContents) (o : InfoBarDelegate.Outcome) (b : Browser) :
  tab_profile b tab = P ->
  service (PermissionRequestIn P O p r c (Some tab) o b) P =
  PermissionRequest O p r c (Some tab) o (service b P).
Proof.
  intros Hown. unfold PermissionRequestIn, PermissionRequest.
  rewrite answers_in_own_tab by (now rewrite tab_profile_put_service).
  now rewrite service_put_service.
Qed.

(** X11. Take a regular profile and a request handled by its service, with
    a tab that belongs to that profile, so that the answer to the infobar goes
    to the same service.  Once the user has accepted or denied the infobar,
    the origin's content setting in that service is ALLOW or BLOCK, and the
    next RequestPermission for the origin is answered at once with its
    completion notice, without an infobar.  A request whose infobar is
    dismissed changes no preference of the service. *)
Theorem answered_origin_is_not_asked_again
    (b : Browser) (P : ProfileId) (O : GURL) (p r c : Z) (tab : TabContents)
    (o : InfoBarDelegate.Outcome) (p' r' c' : Z) (tab' : TabContents) :
  tab_profile b tab = P ->
  IsOffTheRecord (service b P) = false ->
  let s1 := service (PermissionRequestIn P O p r c (Some tab) o b) P in
  (o <> InfoBarDelegate.UserDismisses ->
   (GetContentSetting s1 O = CONTENT_SETTING_ALLOW \/
    GetContentSetting s1 O = CONTENT_SETTING_BLOCK) /\
   events (RequestPermission O p' r' c' (Some tab') s1) =
   events s1 ++ [PostTask (NotificationPermissionCallbackTask p' r' c')]) /\
  (o = InfoBarDelegate.UserDismisses -> GetPrefs s1 = GetPrefs (service b P)).
Proof.
  intros Hown Hotr. cbv zeta. rewrite (PermissionRequestIn_own_tab _ _ _ _ _ _ _ _ Hown).
  exact (answer_taken_by_requesting_service O p r c tab o p' r' c' tab'
           (service b P) Hotr).
Qed.

Lemma answered_origin_is_not_asked_again_witness :
  let s1 := service (PermissionRequestIn 0 unseen_example 7 1 42 (Some 5)
                       InfoBarDelegate.UserDenies two_profiles) 0 in
  events (RequestPermission unseen_example 8 2 43 (Some 6) s1) =
  events s1 ++ [PostTask (NotificationPermissionCallbackTask 8 2 43)].
Proof.
  destruct (answered_origin_is_not_asked_again two_profiles 0 unseen_example
              7 1 42 5 InfoBarDelegate.UserDenies 8 2 43 6 eq_refl eq_refl)
    as (Hanswered & _).
  apply Hanswered. discriminate.
Defined.

(** X12. Take an off-the-record profile and a request handled by its
    service, with a tab that belongs to that profile, so that the answer to
    the infobar goes to the same service.  The request always puts up the
    infobar; accepting or denying it posts the cache update for the origin and
    the completion notice, but changes no preference of the service and
    schedules no save; and the next request to the service for the same
    origin puts up the infobar again. *)
Theorem off_the_record_flow_persists_nothing
    (b : Browser) (P : ProfileId) (O : GURL) (p r c : Z) (tab : TabContents)
    (o : InfoBarDelegate.Outcome) (p' r' c' : Z) (tab' : TabContents) :
  tab_profile b tab = P ->
  IsOffTheRecord (service b P) = true ->
  let s := service b P in
  let s1 := service (PermissionRequestIn P O p r c (Some tab) o b) P in
  let d := mkDelegate O (DisplayNameForOrigin s O) p r c false in
  let notice := PostTask (NotificationPermissionCallbackTask p r c) in
  GetPrefs s1 = GetPrefs s /\
  events s1 =
  events s ++
  match o with
  | InfoBarDelegate.UserAccepts =>
      [AddInfoBar tab d;
       UMA_HISTOGRAM_COUNTS "NotificationPermissionRequest.Allowed";
       PostTask (CacheAllowedOrigin O); notice]
  | InfoBarDelegate.UserDenies =>
      [AddInfoBar tab d;
       UMA_HISTOGRAM_COUNTS "NotificationPermissionRequest.Denied";
       PostTask (CacheDeniedOrigin O); notice]
  | InfoBarDelegate.UserDismisses =>
      [AddInfoBar tab d;
       UMA_HISTOGRAM_COUNTS "NotificationPermissionRequest.Ignored"; notice]
  end /\
  events (RequestPermission O p' r' c' (Some tab') s1) =
  events s1 ++
  [AddInfoBar tab' (mkDelegate O (DisplayNameForOrigin s1 O) p' r' c' false)].
Proof.
  intros Hown Hotr. cbv zeta. rewrite (PermissionRequestIn_own_tab _ _ _ _ _ _ _ _ Hown).
  exact (off_the_record_answer_taken_by_requesting_service O p r c tab o p' r' c'
           tab' (service b P) Hotr).
Qed.

Lemma off_the_record_flow_persists_nothing_witness :
  GetPrefs (service (PermissionRequestIn 1 unseen_example 7 1 42 (Some 9)
                       InfoBarDelegate.UserAccepts two_profiles) 1) =
  GetPrefs (service two_profiles 1).
Proof.
  apply (off_the_record_flow_persists_nothing two_profiles 1 unseen_example
           7 1 42 9 InfoBarDelegate.UserAccepts 8 2 43 9 eq_refl eq_refl).
Defined.

(** The tab need not belong to the profile whose service handles the request.
    Here the service of profile 0 puts the infobar up in a tab of profile 2:
    the user's acceptance is recorded by the service of profile 2, and the
    service of profile 0 still has the origin at ASK. *)
Lemma answer_in_a_tab_of_another_profile :
  let b1 := PermissionRequestIn 0 unseen_example 7 1 42 (Some 5)
              InfoBarDelegate.UserAccepts foreign_tabs in
  GetContentSetting (service b1 0) unseen_example = CONTENT_SETTING_ASK /\
  GetContentSetting (service b1 2) unseen_example = CONTENT_SETTING_ALLOW.
Proof. split; reflexivity. Qed.
